(** * pytest_elasticsearch/executor.py: a shallow embedding and its properties

    The development follows the source file top to bottom.  The Python
    libraries the file imports ([base64], [re], [subprocess],
    [pkg_resources], [mirakuru]) are modelled first, each in a module of
    its own; the two classes [NoopElasticsearch] and
    [ElasticSearchExecutor] follow; the properties come last.

    Modelling conventions.
    - A Python [bytes] is a [string], byte for byte.  A Python [str] is the
      [string] of its UTF-8 encoding: [.encode()] is then the identity,
      [.decode("utf-8")] checks that the bytes are well-formed UTF-8 and
      raises [UnicodeDecodeError] when they are not, and joining two texts
      joins their bytes.
    - The digit class [\d] of [re] on a [str] is every decimal digit of
      Unicode; the pattern is matched on the UTF-8 encoding, where such a
      digit is one to four bytes.
    - A Python [int] is a [Z].
    - A dict with string keys is a [gmap string _]; an object whose set of
      attributes varies is the [gmap] of its [__dict__].
    - An exception is a value of [exn]; a computation that may raise
      returns a [result]. *)

From Stdlib Require Import ZArith NArith String Ascii List Lia DecimalString.
From Stdlib Require DecimalPos.
From stdpp Require Import base option gmap strings.

Open Scope string_scope.
Open Scope Z_scope.

(** ** Python values, exceptions *)

Inductive value : Type :=
| VStr (s : string)
| VInt (z : Z).

#[warnings="-register-all"]
Inductive exn : Type :=
| OSError (errno : Z)
| CalledProcessError (returncode : Z)
| KeyError (key : string)
| AttributeError (name : string)
| TypeError (msg : string)
| ValueError (msg : string)
| UnicodeDecodeError
| InvalidVersion (text : string)
| RuntimeError (msg : string) (cause : option exn).

Inductive result (A : Type) : Type :=
| Ok (a : A)
| Raise (e : exn).
Arguments Ok {A} a.
Arguments Raise {A} e.

(** [d[key]] on a dict. *)
Definition getitem (d : gmap string value) (key : string) : result value :=
  match d !! key with
  | Some v => Ok v
  | None => Raise (KeyError key)
  end.

(** ** Text and its UTF-8 encoding *)

Module Unicode.

(** Whether the code of [c] lies between [lo] and [hi]. *)
Definition byte_in (lo hi : N) (c : ascii) : bool :=
  ((lo <=? N_of_ascii c) && (N_of_ascii c <=? hi))%N.

(** A continuation byte. *)
Definition cont (c : ascii) : bool := byte_in 128 191 c.

(** The first byte of a two-byte sequence: C0 and C1 would start an overlong
    form. *)
Definition lead2 (c0 : ascii) : bool := byte_in 194 223 c0.

(** The first two bytes of a three-byte sequence: no overlong form (E0 is
    followed by A0 or more) and no surrogate (ED is followed by 9F or
    less). *)
Definition lead3 (c0 c1 : ascii) : bool :=
  (byte_in 224 224 c0 && byte_in 160 191 c1)
  || (byte_in 225 236 c0 && cont c1)
  || (byte_in 237 237 c0 && byte_in 128 159 c1)
  || (byte_in 238 239 c0 && cont c1).

(** The first two bytes of a four-byte sequence: no overlong form (F0 is
    followed by 90 or more), nothing above U+10FFFF (F4 is followed by 8F or
    less). *)
Definition lead4 (c0 c1 : ascii) : bool :=
  (byte_in 240 240 c0 && byte_in 144 191 c1)
  || (byte_in 241 243 c0 && cont c1)
  || (byte_in 244 244 c0 && byte_in 128 143 c1).

(** Well-formed UTF-8, as the strict decoder of Python accepts it. *)
Fixpoint valid_utf8 (b : string) : bool :=
  match b with
  | "" => true
  | String c0 r0 =>
      if byte_in 0 127 c0 then valid_utf8 r0
      else
        match r0 with
        | "" => false
        | String c1 r1 =>
            if lead2 c0 then cont c1 && valid_utf8 r1
            else
              match r1 with
              | "" => false
              | String c2 r2 =>
                  if lead3 c0 c1 then cont c2 && valid_utf8 r2
                  else
                    match r2 with
                    | "" => false
                    | String c3 r3 =>
                        lead4 c0 c1 && cont c2 && cont c3 && valid_utf8 r3
                    end
              end
        end
  end.

(** Every byte is below 128: the text is ASCII. *)
Fixpoint is_ascii (b : string) : bool :=
  match b with
  | "" => true
  | String c b' => byte_in 0 127 c && is_ascii b'
  end.

(** The code point that a sequence of two, three or four bytes encodes. *)
Definition codepoint2 (c0 c1 : ascii) : N :=
  ((N_of_ascii c0 - 192) * 64 + (N_of_ascii c1 - 128))%N.

Definition codepoint3 (c0 c1 c2 : ascii) : N :=
  ((N_of_ascii c0 - 224) * 4096 + (N_of_ascii c1 - 128) * 64
   + (N_of_ascii c2 - 128))%N.

Definition codepoint4 (c0 c1 c2 c3 : ascii) : N :=
  ((N_of_ascii c0 - 240) * 262144 + (N_of_ascii c1 - 128) * 4096
   + (N_of_ascii c2 - 128) * 64 + (N_of_ascii c3 - 128))%N.

(** The decimal digits beyond ASCII (general category Nd, Unicode 14.0, the
    database of CPython 3.11): the code point of each digit zero; the digits
    one to nine follow it. *)
Definition digit_zeros : list N :=
  [ 0x660; 0x6F0; 0x7C0; 0x966; 0x9E6; 0xA66;
    0xAE6; 0xB66; 0xBE6; 0xC66; 0xCE6; 0xD66;
    0xDE6; 0xE50; 0xED0; 0xF20; 0x1040; 0x1090;
    0x17E0; 0x1810; 0x1946; 0x19D0; 0x1A80; 0x1A90;
    0x1B50; 0x1BB0; 0x1C40; 0x1C50; 0xA620; 0xA8D0;
    0xA900; 0xA9D0; 0xA9F0; 0xAA50; 0xABF0; 0xFF10;
    0x104A0; 0x10D30; 0x11066; 0x110F0; 0x11136; 0x111D0;
    0x112F0; 0x11450; 0x114D0; 0x11650; 0x116C0; 0x11730;
    0x118E0; 0x11950; 0x11C50; 0x11D50; 0x11DA0; 0x16A60;
    0x16AC0; 0x16B50; 0x1D7CE; 0x1D7D8; 0x1D7E2; 0x1D7EC;
    0x1D7F6; 0x1E140; 0x1E2F0; 0x1E950; 0x1FBF0 ]%N.

Definition is_decimal (cp : N) : bool :=
  existsb (fun zero => (zero <=? cp) && (cp <? zero + 10))%N digit_zeros.

(** A decimal digit of two, three or four bytes. *)
Definition decimal2 (c0 c1 : ascii) : bool :=
  lead2 c0 && cont c1 && is_decimal (codepoint2 c0 c1).

Definition decimal3 (c0 c1 c2 : ascii) : bool :=
  lead3 c0 c1 && cont c2 && is_decimal (codepoint3 c0 c1 c2).

Definition decimal4 (c0 c1 c2 c3 : ascii) : bool :=
  lead4 c0 c1 && cont c2 && cont c3 && is_decimal (codepoint4 c0 c1 c2 c3).

(** A decimal digit of several bytes is at the head of the text. *)
Definition wide_digit_head (s : string) : bool :=
  match s with
  | String c0 (String c1 r1) =>
      decimal2 c0 c1
      || match r1 with
         | String c2 r2 =>
             decimal3 c0 c1 c2
             || match r2 with
                | String c3 _ => decimal4 c0 c1 c2 c3
                | "" => false
                end
         | "" => false
         end
  | _ => false
  end.

(** The text holds no decimal digit of several bytes: its decimal digits are
    the ASCII ones. *)
Fixpoint digits_are_ascii (s : string) : bool :=
  match s with
  | "" => true
  | String _ s' => negb (wide_digit_head s) && digits_are_ascii s'
  end.

End Unicode.

(** ** Python strings *)

Module PyStr.
Import Unicode.

Definition nl : string := String (ascii_of_N 10) "".
Definition squote : ascii := ascii_of_N 39.
Definition dquote : ascii := ascii_of_N 34.
Definition backslash : ascii := ascii_of_N 92.

(** [str(n)] for an [int]. *)
Definition str_of_int (n : Z) : string := NilZero.string_of_int (Z.to_int n).

(** [str(v)], as an f-string or [%s] formats a value. *)
Definition str (v : value) : string :=
  match v with
  | VStr s => s
  | VInt z => str_of_int z
  end.

(** [s.encode()]: a text is held as its UTF-8 encoding. *)
Definition encode (s : string) : string := s.

(** [b.decode("utf-8")]. *)
Definition decode (b : string) : result string :=
  if valid_utf8 b then Ok b else Raise UnicodeDecodeError.

(** [c in s] for a single character. *)
Fixpoint mem (c : ascii) (s : string) : bool :=
  match s with
  | "" => false
  | String a s' => Ascii.eqb a c || mem c s'
  end.

(** [s.startswith(p)]. *)
Fixpoint startswith (s p : string) {struct p} : bool :=
  match p with
  | "" => true
  | String a p' =>
      match s with
      | String b s' => Ascii.eqb a b && startswith s' p'
      | "" => false
      end
  end.

(** [sep.join(parts)]. *)
Definition join (sep : string) (parts : list string) : string :=
  String.concat sep parts.

(** [s.split(sep)] for a one-character separator. *)
Fixpoint split (sep : ascii) (s : string) : list string :=
  match s with
  | "" => [""]
  | String c s' =>
      if Ascii.eqb c sep then "" :: split sep s'
      else match split sep s' with
           | [] => [String c ""]
           | w :: ws => String c w :: ws
           end
  end.

Definition is_digit (c : ascii) : bool :=
  ((48 <=? N_of_ascii c) && (N_of_ascii c <=? 57))%N.

Fixpoint all_digits (s : string) : bool :=
  match s with
  | "" => true
  | String c s' => is_digit c && all_digits s'
  end.

(** [int(s)] for a string of decimal digits. *)
Fixpoint int_acc (acc : N) (s : string) : N :=
  match s with
  | "" => acc
  | String c s' => int_acc (10 * acc + (N_of_ascii c - 48))%N s'
  end.

Definition int (s : string) : N := int_acc 0%N s.

End PyStr.

(** ** [base64.b64encode] and the text form of a [bytes] object *)

Module Base64.

Definition alphabet : string :=
  "ABCDEFGHIJKLMNOPQRSTUVWXYZabcdefghijklmnopqrstuvwxyz0123456789+/".

(** The character for a six-bit group. *)
Definition sextet (n : N) : ascii :=
  match String.get (N.to_nat (N.land n 63)) alphabet with
  | Some c => c
  | None => "="%char
  end.

(** Three input bytes make 24 bits, written as four characters; a final group
    of one or two bytes is padded with [=]. *)
Fixpoint b64encode (s : string) : string :=
  match s with
  | "" => ""
  | String a "" =>
      let n := N.shiftl (N_of_ascii a) 16 in
      String (sextet (N.shiftr n 18)) (String (sextet (N.shiftr n 12)) "==")
  | String a (String b "") =>
      let n := N.lor (N.shiftl (N_of_ascii a) 16) (N.shiftl (N_of_ascii b) 8) in
      String (sextet (N.shiftr n 18))
        (String (sextet (N.shiftr n 12)) (String (sextet (N.shiftr n 6)) "="))
  | String a (String b (String c rest)) =>
      let n := N.lor (N.lor (N.shiftl (N_of_ascii a) 16) (N.shiftl (N_of_ascii b) 8))
                 (N_of_ascii c) in
      String (sextet (N.shiftr n 18))
        (String (sextet (N.shiftr n 12))
           (String (sextet (N.shiftr n 6)) (String (sextet n) (b64encode rest))))
  end.

End Base64.

Module PyBytes.
Import PyStr.

Definition hex_digit (n : N) : ascii :=
  match String.get (N.to_nat n) "0123456789abcdef" with
  | Some c => c
  | None => "0"%char
  end.

(** How [repr] writes one byte inside the quotes: the quote character and the
    backslash are escaped, tab, newline and carriage return have their short
    escapes, other bytes outside the printable ASCII range are written
    [\xhh]. *)
Definition repr_byte (quote c : ascii) : string :=
  let n := N_of_ascii c in
  if Ascii.eqb c quote || Ascii.eqb c backslash then String backslash (String c "")
  else if (n =? 9)%N then String backslash "t"
  else if (n =? 10)%N then String backslash "n"
  else if (n =? 13)%N then String backslash "r"
  else if ((n <? 32) || (127 <=? n))%N then
    String backslash
      (String "x" (String (hex_digit (N.shiftr n 4)) (String (hex_digit (N.land n 15)) "")))
  else String c "".

Fixpoint repr_body (quote : ascii) (b : string) : string :=
  match b with
  | "" => ""
  | String c b' => repr_byte quote c ++ repr_body quote b'
  end.

(** [repr(b)] of a [bytes] object, which is also [str(b)] and what an f-string
    writes for it: the letter b, then the bytes between quotes (double quotes
    only when the bytes hold a single quote and no double quote). *)
Definition repr (b : string) : string :=
  let quote := if mem squote b && negb (mem dquote b) then dquote else squote in
  String "b" (String quote (repr_body quote b ++ String quote "")).

End PyBytes.

(** ** [re.search] for the version pattern

    The pattern of the source is
    [Version: (?P<major>\d)\.(?P<minor>\d+)\.(?P<patch>\d+)].
    Each piece of it is a function from the text still to be read to the text
    left after the piece, and the pattern is their sequence.  [\d+] is greedy;
    what follows it in the pattern (a dot, or the end of the pattern) never
    needs a digit given back, so the longest run of digits is the only one
    tried.  The text is held as its UTF-8 encoding: the pattern begins with
    an ASCII letter, which in well-formed UTF-8 is a character of its own, so
    a match found at a byte is a match found at a character. *)

Module Re.
Import Unicode PyStr.

(** [match.groupdict()]. *)
Record groupdict : Type := {
  major : string;
  minor : string;
  patch : string
}.

(** A literal piece of the pattern. *)
Fixpoint lit (p s : string) : option string :=
  match p with
  | "" => Some s
  | String a p' =>
      match s with
      | String b s' => if Ascii.eqb a b then lit p' s' else None
      | "" => None
      end
  end.

(** [\d]: one decimal digit, an ASCII one or one of several bytes. *)
Definition digit (s : string) : option (string * string) :=
  match s with
  | String c0 r0 =>
      if is_digit c0 then Some (String c0 "", r0)
      else
        match r0 with
        | String c1 r1 =>
            if decimal2 c0 c1 then Some (String c0 (String c1 ""), r1)
            else
              match r1 with
              | String c2 r2 =>
                  if decimal3 c0 c1 c2
                  then Some (String c0 (String c1 (String c2 "")), r2)
                  else
                    match r2 with
                    | String c3 r3 =>
                        if decimal4 c0 c1 c2 c3
                        then Some (String c0 (String c1 (String c2 (String c3 ""))), r3)
                        else None
                    | "" => None
                    end
              | "" => None
              end
        | "" => None
        end
  | "" => None
  end.

(** The longest run of decimal digits at the head of [s], and the rest. *)
Fixpoint span_digits (s : string) : string * string :=
  match s with
  | String c0 r0 =>
      if is_digit c0 then (String c0 (span_digits r0).1, (span_digits r0).2)
      else
        match r0 with
        | String c1 r1 =>
            if decimal2 c0 c1
            then (String c0 (String c1 (span_digits r1).1), (span_digits r1).2)
            else
              match r1 with
              | String c2 r2 =>
                  if decimal3 c0 c1 c2
                  then (String c0 (String c1 (String c2 (span_digits r2).1)),
                        (span_digits r2).2)
                  else
                    match r2 with
                    | String c3 r3 =>
                        if decimal4 c0 c1 c2 c3
                        then (String c0 (String c1 (String c2
                                (String c3 (span_digits r3).1))),
                              (span_digits r3).2)
                        else ("", s)
                    | "" => ("", s)
                    end
              | "" => ("", s)
              end
        | "" => ("", s)
        end
  | "" => ("", "")
  end.

(** [\d+]: one digit or more. *)
Definition digits (s : string) : option (string * string) :=
  match span_digits s with
  | ("", _) => None
  | (d, r) => Some (d, r)
  end.

(** The whole pattern, anchored at the head of [s]. *)
Definition match_here (s : string) : option groupdict :=
  r ← lit "Version: " s;
  '(ma, r) ← digit r;
  r ← lit "." r;
  '(mi, r) ← digits r;
  r ← lit "." r;
  '(pa, _) ← digits r;
  Some {| major := ma; minor := mi; patch := pa |}.

(** [re.search(pattern, s)]: the match at the leftmost position that has
    one. *)
Fixpoint search (s : string) : option groupdict :=
  match match_here s with
  | Some m => Some m
  | None =>
      match s with
      | String _ s' => search s'
      | "" => None
      end
  end.

End Re.

(** ** [pkg_resources.parse_version] and the order of versions

    Only the versions the executor builds are modelled: a release of
    dot-separated decimal numbers ([7.10.2], [6.0.0]).  Anything else is
    reported as [InvalidVersion].  The numbers are converted by [int], which
    refuses a text of more than 4300 digits with a [ValueError] (the default
    limit of the interpreter). *)

Module PkgResources.
Import PyStr.

Record Version : Type := { release : list N }.

Definition release_part (p : string) : bool :=
  negb (String.eqb p "") && all_digits p.

Definition int_max_str_digits : N := 4300.

(** Whether [int(p)] exceeds the limit on the number of digits. *)
Definition too_long (p : string) : bool :=
  (int_max_str_digits <? N.of_nat (String.length p))%N.

(** The message of the [ValueError] that [int(p)] raises then. *)
Definition int_limit_msg (p : string) : string :=
  "Exceeds the limit (4300 digits) for integer string conversion: value has "
  ++ str_of_int (Z.of_nat (String.length p))
  ++ " digits; use sys.set_int_max_str_digits() to increase the limit".

Definition parse_version (s : string) : result Version :=
  let parts := split "." s in
  if forallb release_part parts then
    match find too_long parts with
    | Some p => Raise (ValueError (int_limit_msg p))
    | None => Ok {| release := map int parts |}
    end
  else Raise (InvalidVersion s).

(** The comparison key of a release drops its trailing zeros, so that [6],
    [6.0] and [6.0.0] are the same version. *)
Fixpoint dropwhile_zero (l : list N) : list N :=
  match l with
  | 0%N :: l' => dropwhile_zero l'
  | _ => l
  end.

Definition cmpkey (v : Version) : list N :=
  rev (dropwhile_zero (rev (release v))).

(** [a < b] on tuples of integers. *)
Fixpoint tuple_lt (a b : list N) : bool :=
  match a, b with
  | _, [] => false
  | [], _ :: _ => true
  | x :: a', y :: b' =>
      if (x <? y)%N then true
      else if (y <? x)%N then false
      else tuple_lt a' b'
  end.

(** [a < b] on versions. *)
Definition lt (a b : Version) : bool := tuple_lt (cmpkey a) (cmpkey b).

End PkgResources.

(** ** [subprocess.check_output] and the world outside

    What running a program yields is not the executor's to decide.  The world
    holds, for every invocation number, what the program started by that
    invocation does, and the number of invocations made so far: the binary
    behind a path may change from one invocation to the next. *)

Inductive completed : Type :=
| Exited (returncode : Z) (stdout : string)
| NotRunnable (errno : Z).

Record World : Type := {
  programs : nat -> list string -> completed;
  invocations : nat
}.

(** [check_output(args)]: runs the program and returns its standard output;
    a program that cannot be started raises [OSError], one that exits with a
    status other than zero raises [CalledProcessError].  Arguments that
    Python refuses before it starts anything (a path that holds a NUL byte
    raises [ValueError]) are not modelled: the world says what a started
    program does. *)
Definition check_output (args : list string) (w : World) : result string * World :=
  let w' := {| programs := programs w; invocations := S (invocations w) |} in
  match programs w (invocations w) args with
  | NotRunnable errno => (Raise (OSError errno), w')
  | Exited rc out =>
      if rc =? 0 then (Ok out, w') else (Raise (CalledProcessError rc), w')
  end.

(** ** [mirakuru.HTTPExecutor]

    The base class is the process supervisor; its code is not part of the
    source.  Its constructor is handed the command, the URL to poll, the
    timeout and the headers.  It may refuse them and raise; otherwise it
    keeps them, and it assigns the attributes [host] and [port] of the object
    itself from the URL it has parsed.  It starts nothing: a process is only
    spawned by [start].  What exactly it refuses and what it reads off the
    URL is left open: the constructor is an argument of the model. *)

Module HTTPExecutor.

(** What the base class has set on the object when its constructor
    returns. *)
Record t : Type := {
  host : string;
  port : Z;
  command : string;
  url : string;
  timeout : Z;
  headers : option (gmap string string)
}.

(** A constructor of the base class: [__init__(command, url, timeout=...,
    headers=...)]. *)
Definition init : Type :=
  string -> string -> Z -> option (gmap string string) -> result t.

End HTTPExecutor.

(** ** class NoopElasticsearch

    The object is its [__dict__]: which attributes it has depends on how it
    was constructed. *)

Module NoopElasticsearch.

Definition t : Type := gmap string value.

Definition __init__ (host port : value) (http_auth : option (gmap string value))
    : result t :=
  let self : t := <["host" := host]> ∅ in
  let self : t := <["port" := port]> self in
  match http_auth with
  | Some auth =>
      match getitem auth "login" with
      | Raise e => Raise e
      | Ok login =>
          let self : t := <["login" := login]> self in
          match getitem auth "password" with
          | Raise e => Raise e
          | Ok password => Ok (<["password" := password]> self)
          end
      end
  | None => Ok self
  end.

(** [self.name]: the instance has no attribute but those of its [__dict__]
    (the class itself only defines [__init__] and [running]). *)
Definition getattr (self : t) (name : string) : result value :=
  match self !! name with
  | Some v => Ok v
  | None => Raise (AttributeError name)
  end.

Definition running : bool := true.

End NoopElasticsearch.

(** ** class ElasticSearchExecutor *)

Module ElasticSearchExecutor.
Import PyStr PkgResources.

(** The attributes [__init__] sets, and the part of the object the base
    class sets up, absent until [super().__init__] has run. *)
Record t : Type := {
  _version : option Version;
  executable : string;
  host : string;
  port : Z;
  tcp_port : Z;
  pidfile : string;
  logs_path : string;
  works_path : string;
  cluster_name : string;
  network_publish_host : string;
  index_store_type : string;
  http_auth : option (gmap string value);
  base : option HTTPExecutor.t
}.

Definition set_version (self : t) (v : option Version) : t :=
  {| _version := v;
     executable := executable self;
     host := host self;
     port := port self;
     tcp_port := tcp_port self;
     pidfile := pidfile self;
     logs_path := logs_path self;
     works_path := works_path self;
     cluster_name := cluster_name self;
     network_publish_host := network_publish_host self;
     index_store_type := index_store_type self;
     http_auth := http_auth self;
     base := base self |}.

(** The object after [super().__init__] has returned: the base class has
    assigned [host] and [port], which are attributes of the same object. *)
Definition set_base (self : t) (b : HTTPExecutor.t) : t :=
  {| _version := _version self;
     executable := executable self;
     host := HTTPExecutor.host b;
     port := HTTPExecutor.port b;
     tcp_port := tcp_port self;
     pidfile := pidfile self;
     logs_path := logs_path self;
     works_path := works_path self;
     cluster_name := cluster_name self;
     network_publish_host := network_publish_host self;
     index_store_type := index_store_type self;
     http_auth := http_auth self;
     base := Some b |}.

(** A method runs in a world, on an object it may change, and returns or
    raises. *)
Definition M (A : Type) : Type := World -> t -> result A * World * t.

Definition ret {A} (a : A) : M A := fun w self => (Ok a, w, self).

Definition raise {A} (e : exn) : M A := fun w self => (Raise e, w, self).

Definition bind {A B} (m : M A) (f : A -> M B) : M B :=
  fun w self =>
    match m w self with
    | (Ok a, w', self') => f a w' self'
    | (Raise e, w', self') => (Raise e, w', self')
    end.

#[global] Instance M_ret : MRet M := @ret.
#[global] Instance M_bind : MBind M := fun A B f m => bind m f.
#[global] Instance M_fmap : FMap M := fun A B f m => bind m (fun a => ret (f a)).

Definition get_self : M t := fun w self => (Ok self, w, self).

Definition put_self (self' : t) : M unit := fun w _ => (Ok tt, w, self').

(** A call out to the world. *)
Definition call {A} (f : World -> result A * World) : M A :=
  fun w self => let (r, w') := f w in (r, w', self).

(** A library function that may raise. *)
Definition lift {A} (r : result A) : M A := fun w self => (r, w, self).

(** [try: body except OSError as exc: handler(exc)]. *)
Definition try_except_OSError {A} (body : M A) (handler : exn -> M A) : M A :=
  fun w self =>
    match body w self with
    | (Raise (OSError errno), w', self') => handler (OSError errno) w' self'
    | other => other
    end.

Definition not_recognized (output : string) : string :=
  "Elasticsearch version is not recognized. It is probably not supported. "
  ++ nl ++ "Output is: " ++ output.

Definition does_not_point (executable : string) : string :=
  "'" ++ executable ++ "' does not point to elasticsearch.".

(** Whether a stored version counts as true in a condition: a [Version]
    object does, [None] does not. *)
Definition truthy (v : option Version) : bool :=
  match v with
  | Some _ => true
  | None => false
  end.

(** The [version] property.  Its value is what [self._version] holds when it
    returns. *)
Definition version : M (option Version) :=
  self ← get_self;
  (if negb (truthy (_version self)) then
     try_except_OSError
       (stdout ← call (check_output [executable self; "-Vv"]);
        output ← lift (decode stdout);
        match Re.search output with
        | None => raise (RuntimeError (not_recognized output) None)
        | Some m =>
            v ← lift (parse_version
                        (join "." [Re.major m; Re.minor m; Re.patch m]));
            put_self (set_version self (Some v))
        end)
       (fun exc => raise (RuntimeError (does_not_point (executable self)) (Some exc)))
   else mret tt);;
  self ← get_self;
  mret (_version self).

Definition indent (n : nat) : string := String.concat "" (repeat " " n).

(** The f-string of [_exec_command], piece by piece. *)
Definition command_text (self : t) : string :=
  nl ++ indent 12 ++ executable self ++ " -p " ++ pidfile self
  ++ nl ++ indent 12 ++ "-E http.port=" ++ str_of_int (port self)
  ++ nl ++ indent 12 ++ "-E transport.tcp.port=" ++ str_of_int (tcp_port self)
  ++ nl ++ indent 12 ++ "-E path.logs=" ++ logs_path self
  ++ nl ++ indent 12 ++ "-E path.data=" ++ works_path self
  ++ nl ++ indent 12 ++ "-E cluster.name=" ++ cluster_name self
  ++ nl ++ indent 12 ++ "-E network.host='" ++ network_publish_host self ++ "'"
  ++ nl ++ indent 12 ++ "-E index.store.type=" ++ index_store_type self
  ++ nl ++ indent 8.

Definition not_supported : string := "This elasticsearch version is not supported.".

(** [v < floor] where [v] is what the [version] property returned: comparing
    [None] with a version is a [TypeError]. *)
Definition version_lt (v : option Version) (floor : Version) : result bool :=
  match v with
  | Some v => Ok (lt v floor)
  | None => Raise (TypeError "'<' not supported between instances of 'NoneType' and 'Version'")
  end.

Definition _exec_command : M string :=
  v ← version;
  floor ← lift (parse_version "6.0.0");
  below ← lift (version_lt v floor);
  if below : bool then raise (RuntimeError not_supported None)
  else self ← get_self; mret (command_text self).

(** Lines 83 to 89 of [__init__]: the headers of the readiness probe. *)
Definition make_headers (http_auth : option (gmap string value))
    : result (option (gmap string string)) :=
  match http_auth with
  | Some auth =>
      match getitem auth "login" with
      | Raise e => Raise e
      | Ok login =>
          match getitem auth "password" with
          | Raise e => Raise e
          | Ok password =>
              let token :=
                Base64.b64encode (encode (str login ++ ":" ++ str password)) in
              Ok (Some ({[ "Authorization" := "Basic " ++ PyBytes.repr token ]}))
          end
      end
  | None => Ok None
  end.

(** The constructor.  [super_init] is the constructor of the base class that
    [super().__init__] reaches. *)
Definition __init__ (super_init : HTTPExecutor.init)
    (executable host : string) (port tcp_port : Z)
    (pidfile logs_path works_path cluster_name network_publish_host
       index_store_type : string)
    (timeout : Z) (http_auth : option (gmap string value)) (w : World)
    : result t * World :=
  let self :=
    {| _version := None;
       executable := executable;
       host := host;
       port := port;
       tcp_port := tcp_port;
       pidfile := pidfile;
       logs_path := logs_path;
       works_path := works_path;
       cluster_name := cluster_name;
       network_publish_host := network_publish_host;
       index_store_type := index_store_type;
       http_auth := http_auth;
       base := None |} in
  match make_headers http_auth with
  | Raise e => (Raise e, w)
  | Ok headers =>
      match _exec_command w self with
      | (Raise e, w', _) => (Raise e, w')
      | (Ok command, w', self') =>
          let url := "http://" ++ host ++ ":" ++ str_of_int port in
          match super_init command url timeout headers with
          | Raise e => (Raise e, w')
          | Ok b => (Ok (set_base self' b), w')
          end
      end
  end.

End ElasticSearchExecutor.

(** ** Notions used to state the properties *)

Module Spec.
Import PyStr PkgResources ElasticSearchExecutor.

(** The world after one more invocation. *)
Definition tick (w : World) : World :=
  {| programs := programs w; invocations := S (invocations w) |}.

(** [sub] occurs in [s]. *)
Definition contains (sub s : string) : Prop :=
  exists pre post, s = pre ++ sub ++ post.

(** *** The version pattern, read as a description of texts *)

Definition head_is_digit (s : string) : bool :=
  match s with
  | String c _ => is_digit c
  | "" => false
  end.

(** [Version: c.mi.pa] followed by [rest]. *)
Definition version_line (c : ascii) (mi pa rest : string) : string :=
  "Version: " ++ String c ("." ++ mi ++ "." ++ pa ++ rest).

(** The pattern matches at the head of [s]: one digit, a dot, digits, a dot,
    digits. *)
Definition matches (s : string) : Prop :=
  exists c mi pa rest,
    is_digit c = true /\ mi <> "" /\ all_digits mi = true /\
    pa <> "" /\ all_digits pa = true /\ s = version_line c mi pa rest.

(** The pattern matches somewhere in [out]. *)
Definition occurs (out : string) : Prop :=
  exists pre s, out = pre ++ s /\ matches s.

(** *** The order of version triples *)

Definition triple_lt (x y : N * N * N) : Prop :=
  let '(a, b, c) := x in
  let '(a', b', c') := y in
  (a < a' \/ (a = a' /\ (b < b' \/ (b = b' /\ c < c'))))%N.

(** *** Settings in a command *)

(** The number of positions of [s] at which [sub] starts. *)
Fixpoint occurrences (sub s : string) : nat :=
  match s with
  | "" => if startswith "" sub then 1%nat else 0%nat
  | String _ s' => ((if startswith s sub then 1 else 0) + occurrences sub s')%nat
  end.

(** The settings of a command: the text that introduces each, and the text
    of its value. *)
Definition settings (self : t) : list (string * string) :=
  [ (" -p ", pidfile self);
    ("http.port=", str_of_int (port self));
    ("transport.tcp.port=", str_of_int (tcp_port self));
    ("path.logs=", logs_path self);
    ("path.data=", works_path self);
    ("cluster.name=", cluster_name self);
    ("network.host=", "'" ++ network_publish_host self ++ "'");
    ("index.store.type=", index_store_type self) ].

(** Every setting is introduced exactly once in [command], and is there with
    its value, which ends the line. *)
Definition one_of_each (self : t) (command : string) : Prop :=
  Forall (fun kv => occurrences kv.1 command = 1%nat
                    /\ contains (kv.1 ++ kv.2 ++ nl) command)
         (settings self).

(** A value is plain when it holds no space and no equals sign and does not
    begin with a hyphen. *)
Definition plain (v : string) : bool :=
  negb (mem " " v) && negb (mem "=" v) && negb (startswith v "-").

Definition plain_config (self : t) : bool :=
  plain (executable self) && plain (pidfile self) && plain (logs_path self)
  && plain (works_path self) && plain (cluster_name self)
  && plain (network_publish_host self) && plain (index_store_type self).

(** *** Counting occurrences across a literal piece of the command

    Whether [key] starts at a position of the literal [l] is decided by [l]
    alone unless [l] ends before [key] does; it is then decided by knowing a
    character [h] that the text after [l] does not start with. *)

Definition head_in (s key : string) : bool :=
  match s with
  | String c _ => mem c key
  | "" => false
  end.

Definition head_is (c : ascii) (s : string) : bool :=
  match s with
  | String x _ => Ascii.eqb x c
  | "" => false
  end.

Definition head_ok (h : option ascii) (s : string) : Prop :=
  match h with
  | Some c => head_is c s = false
  | None => True
  end.

Fixpoint starts_lit (h : option ascii) (l key : string) {struct key} : option bool :=
  match key with
  | "" => Some true
  | String k key' =>
      match l with
      | String c l' => if Ascii.eqb k c then starts_lit h l' key' else Some false
      | "" =>
          match h with
          | Some c => if Ascii.eqb k c then Some false else None
          | None => None
          end
      end
  end.

Fixpoint occurrences_lit (h : option ascii) (key l : string) : option nat :=
  match l with
  | "" => Some 0%nat
  | String _ l' =>
      match starts_lit h l key, occurrences_lit h key l' with
      | Some b, Some n => Some ((if b then 1 else 0) + n)%nat
      | _, _ => None
      end
  end.

(** *** The Configuration invariant on ports *)

Definition ports_distinct_positive (p tp : Z) : Prop :=
  0 < p /\ 0 < tp /\ p <> tp.

End Spec.

(** ** Concrete worlds and configurations *)

Module Examples.
Import PyStr PkgResources ElasticSearchExecutor.

Definition es_bin : string := "/usr/share/elasticsearch/bin/elasticsearch".

(** What [elasticsearch -Vv] prints for a given version text. *)
Definition banner (ver : string) : string :=
  "Version: " ++ ver ++ ", Build: default/tar/747e1cc/2021-01-13, JVM: 15.0.1" ++ nl.

(** The bytes with the given codes. *)
Definition bytes (codes : list N) : string :=
  string_of_list_ascii (map ascii_of_N codes).

(** [c * n]: the character [c], [n] times. *)
Fixpoint times (n : nat) (c : ascii) : string :=
  match n with
  | O => ""
  | S n' => String c (times n' c)
  end.

(** A world in which every program prints [out] and exits with status 0. *)
Definition printing (out : string) : World :=
  {| programs := fun _ _ => Exited 0 out; invocations := 0 |}.

(** A world in which no program can be started (errno 2, ENOENT). *)
Definition missing : World :=
  {| programs := fun _ _ => NotRunnable 2; invocations := 0 |}.

(** A world in which the binary is missing at first and installed before the
    second invocation. *)
Definition installed_later : World :=
  {| programs := fun n _ =>
       match n with
       | O => NotRunnable 2
       | S _ => Exited 0 (banner "7.10.2")
       end;
     invocations := 0 |}.

(** The object as [__init__] has it before it calls [_exec_command]. *)
Definition fresh (tcp_port : Z) (cluster_name : string) : t :=
  {| _version := None;
     executable := es_bin;
     host := "127.0.0.1";
     port := 9200;
     tcp_port := tcp_port;
     pidfile := "/tmp/elasticsearch.9200.pid";
     logs_path := "/tmp/elasticsearch_9200_logs";
     works_path := "/tmp/elasticsearch_9200_tmp";
     cluster_name := cluster_name;
     network_publish_host := "127.0.0.1";
     index_store_type := "mmapfs";
     http_auth := None;
     base := None |}.

Definition v7 : Version := {| release := [7; 10; 2]%N |}.

(** The credential pair as a dict. *)
Definition credentials (login password : value) : gmap string value :=
  <["login" := login]> (<["password" := password]> ∅).

(** A constructor of the base class that accepts what it is given and has
    read the host [h] and the port [p] off the URL. *)
Definition accepting (h : string) (p : Z) : HTTPExecutor.init :=
  fun command url timeout headers =>
    Ok {| HTTPExecutor.host := h;
          HTTPExecutor.port := p;
          HTTPExecutor.command := command;
          HTTPExecutor.url := url;
          HTTPExecutor.timeout := timeout;
          HTTPExecutor.headers := headers |}.

(** [__init__] with the arguments of [fresh], and credentials.  The URL is
    [http://127.0.0.1:9200], whose host and port are [127.0.0.1] and [9200];
    the command holds no quotation mark and no backslash. *)
Definition construct (tcp_port : Z) (http_auth : option (gmap string value))
    (w : World) : result t * World :=
  __init__ (accepting "127.0.0.1" 9200) es_bin "127.0.0.1" 9200 tcp_port
    "/tmp/elasticsearch.9200.pid" "/tmp/elasticsearch_9200_logs"
    "/tmp/elasticsearch_9200_tmp" "elasticsearch_cluster_9200" "127.0.0.1" "mmapfs"
    60 http_auth w.

(** The Authorization header of a constructed executor. *)
Definition authorization (r : result t * World) : option string :=
  match r.1 with
  | Ok e => b ← base e; h ← HTTPExecutor.headers b; h !! "Authorization"
  | Raise _ => None
  end.

End Examples.

(** ** Notions used to state further properties *)

Module Shape.
Import PyStr ElasticSearchExecutor.

Definition newline : ascii := ascii_of_N 10.

(** [s.split("\n")]. *)
Definition lines (s : string) : list string := split newline s.

(** No string-valued field of the configuration holds a newline. *)
Definition one_line_config (self : t) : bool :=
  negb (mem newline (executable self)) && negb (mem newline (pidfile self))
  && negb (mem newline (logs_path self)) && negb (mem newline (works_path self))
  && negb (mem newline (cluster_name self))
  && negb (mem newline (network_publish_host self))
  && negb (mem newline (index_store_type self)).

End Shape.

Module Charset.
Import PyStr.

(** Every character of [s] satisfies [p]. *)
Fixpoint string_forallb (p : ascii -> bool) (s : string) : bool :=
  match s with
  | "" => true
  | String c s' => p c && string_forallb p s'
  end.

(** A byte that [repr] writes as itself between single quotes. *)
Definition printable (c : ascii) : bool :=
  negb (Ascii.eqb c squote) && negb (Ascii.eqb c dquote)
  && negb (Ascii.eqb c backslash)
  && (32 <=? N_of_ascii c)%N && (N_of_ascii c <? 127)%N.

End Charset.

Module MoreExamples.
Import PyStr PkgResources ElasticSearchExecutor Examples.

(** A world in which every program prints [out] and exits with status
    [rc]. *)
Definition exiting (rc : Z) (out : string) : World :=
  {| programs := fun _ _ => Exited rc out; invocations := 0 |}.

(** A dict with a login and no password. *)
Definition login_only : gmap string value := {[ "login" := VStr "elastic" ]}.

(** A dict with a password and no login. *)
Definition password_only : gmap string value := {[ "password" := VStr "secret" ]}.

(** A credential pair inside a dict that holds more. *)
Definition with_realm : gmap string value :=
  <["realm" := VStr "native"]> (credentials (VStr "elastic") (VInt 42)).

End MoreExamples.

(** * Properties *)

Import Unicode PyStr PkgResources ElasticSearchExecutor Spec Examples MoreExamples.

#[local] Arguments String.append : simpl nomatch.

(** ** Strings *)

Lemma app_assoc_s (a b c : string) : (a ++ b) ++ c = a ++ b ++ c.
Proof. induction a as [|x a IH]; simpl; [reflexivity | now rewrite IH]. Qed.

Lemma app_nil_r_s (a : string) : a ++ "" = a.
Proof. induction a as [|x a IH]; simpl; [reflexivity | now rewrite IH]. Qed.

Lemma length_app_s (a b : string) :
  String.length (a ++ b) = (String.length a + String.length b)%nat.
Proof. induction a as [|x a IH]; simpl; [reflexivity | now rewrite IH]. Qed.

Lemma contains_intro pre sub post s : s = pre ++ sub ++ post -> contains sub s.
Proof. intros ->. now exists pre, post. Qed.

Lemma all_digits_app a b :
  all_digits (a ++ b) = all_digits a && all_digits b.
Proof.
  induction a as [|x a IH]; simpl; [reflexivity|].
  rewrite IH. now rewrite andb_assoc.
Qed.

(** ** Bytes *)

Lemma byte_in_spec lo hi c :
  byte_in lo hi c = true <-> (lo <= N_of_ascii c <= hi)%N.
Proof. unfold byte_in. rewrite andb_true_iff, !N.leb_le. tauto. Qed.

Lemma byte_in_false lo hi c :
  (N_of_ascii c < lo \/ hi < N_of_ascii c)%N -> byte_in lo hi c = false.
Proof.
  intros H. apply not_true_iff_false. rewrite byte_in_spec. lia.
Qed.

Lemma cont_high c : cont c = true -> (128 <= N_of_ascii c)%N.
Proof. unfold cont. rewrite byte_in_spec. lia. Qed.

Lemma lead2_high c : lead2 c = true -> (128 <= N_of_ascii c)%N.
Proof. unfold lead2. rewrite byte_in_spec. lia. Qed.

Lemma lead3_high c0 c1 :
  lead3 c0 c1 = true -> (128 <= N_of_ascii c0)%N /\ (128 <= N_of_ascii c1)%N.
Proof.
  unfold lead3, cont.
  rewrite !orb_true_iff, !andb_true_iff, !byte_in_spec. lia.
Qed.

Lemma lead4_high c0 c1 :
  lead4 c0 c1 = true -> (128 <= N_of_ascii c0)%N /\ (128 <= N_of_ascii c1)%N.
Proof.
  unfold lead4, cont.
  rewrite !orb_true_iff, !andb_true_iff, !byte_in_spec. lia.
Qed.

Lemma high_not_dot c : (128 <= N_of_ascii c)%N -> Ascii.eqb c "." = false.
Proof.
  intros H. destruct (Ascii.eqb_spec c ".") as [->|]; [|reflexivity].
  vm_compute in H. now destruct H.
Qed.

Lemma high_not_digit c : (128 <= N_of_ascii c)%N -> is_digit c = false.
Proof.
  intros H. unfold is_digit. apply not_true_iff_false.
  rewrite andb_true_iff, !N.leb_le. lia.
Qed.

Lemma digit_low c : is_digit c = true -> byte_in 0 127 c = true.
Proof.
  unfold is_digit. rewrite andb_true_iff, !N.leb_le, byte_in_spec. lia.
Qed.

Lemma decimal2_high c0 c1 :
  decimal2 c0 c1 = true -> (128 <= N_of_ascii c0)%N /\ (128 <= N_of_ascii c1)%N.
Proof.
  unfold decimal2. rewrite !andb_true_iff. intros [[H0 H1] _].
  split; [now apply lead2_high | now apply cont_high].
Qed.

Lemma decimal3_high c0 c1 c2 :
  decimal3 c0 c1 c2 = true ->
  (128 <= N_of_ascii c0)%N /\ (128 <= N_of_ascii c1)%N /\ (128 <= N_of_ascii c2)%N.
Proof.
  unfold decimal3. rewrite !andb_true_iff. intros [[H0 H2] _].
  destruct (lead3_high _ _ H0). repeat split; try assumption. now apply cont_high.
Qed.

Lemma decimal4_high c0 c1 c2 c3 :
  decimal4 c0 c1 c2 c3 = true ->
  (128 <= N_of_ascii c0)%N /\ (128 <= N_of_ascii c1)%N
  /\ (128 <= N_of_ascii c2)%N /\ (128 <= N_of_ascii c3)%N.
Proof.
  unfold decimal4. rewrite !andb_true_iff. intros [[[H0 H2] H3] _].
  destruct (lead4_high _ _ H0). repeat split; try assumption; now apply cont_high.
Qed.

(** A byte below 128 starts no digit of several bytes. *)
Lemma decimal2_low c0 c1 : byte_in 0 127 c0 = true -> decimal2 c0 c1 = false.
Proof.
  rewrite byte_in_spec. intros H. apply not_true_iff_false.
  intros [H0 _]%decimal2_high. lia.
Qed.

Lemma decimal3_low c0 c1 c2 : byte_in 0 127 c0 = true -> decimal3 c0 c1 c2 = false.
Proof.
  rewrite byte_in_spec. intros H. apply not_true_iff_false.
  intros [H0 _]%decimal3_high. lia.
Qed.

Lemma decimal4_low c0 c1 c2 c3 :
  byte_in 0 127 c0 = true -> decimal4 c0 c1 c2 c3 = false.
Proof.
  rewrite byte_in_spec. intros H. apply not_true_iff_false.
  intros [H0 _]%decimal4_high. lia.
Qed.

(** ** ASCII text and decoding *)

Lemma is_ascii_valid b : is_ascii b = true -> valid_utf8 b = true.
Proof.
  induction b as [|c b IH]; [reflexivity|].
  cbn [is_ascii valid_utf8]. intros [Hc Hb]%andb_true_iff.
  rewrite Hc. auto.
Qed.

Lemma decode_ascii b : is_ascii b = true -> decode b = Ok b.
Proof. intros H. unfold decode. now rewrite (is_ascii_valid _ H). Qed.

Lemma is_ascii_app a b : is_ascii (a ++ b) = is_ascii a && is_ascii b.
Proof.
  induction a as [|c a IH]; [reflexivity|].
  cbn [String.append is_ascii]. rewrite IH. now rewrite andb_assoc.
Qed.

Lemma is_ascii_suffix a b : is_ascii (a ++ b) = true -> is_ascii b = true.
Proof. rewrite is_ascii_app. now intros [_ H]%andb_true_iff. Qed.

Lemma all_digits_ascii d : all_digits d = true -> is_ascii d = true.
Proof.
  induction d as [|c d IH]; [reflexivity|]. cbn [all_digits is_ascii].
  intros [Hc Hd]%andb_true_iff. now rewrite (digit_low _ Hc), (IH Hd).
Qed.

(** ** Text whose decimal digits are ASCII *)

Lemma wide_digit_head_low c r :
  byte_in 0 127 c = true -> wide_digit_head (String c r) = false.
Proof.
  intros H. unfold wide_digit_head.
  destruct r as [|c1 [|c2 [|c3 r]]];
    rewrite ?(decimal2_low c _ H), ?(decimal3_low c _ _ H), ?(decimal4_low c _ _ _ H);
    reflexivity.
Qed.

Lemma is_ascii_digits s : is_ascii s = true -> digits_are_ascii s = true.
Proof.
  induction s as [|c s IH]; [reflexivity|]. cbn [is_ascii digits_are_ascii].
  intros [Hc Hs]%andb_true_iff. now rewrite (wide_digit_head_low _ _ Hc), (IH Hs).
Qed.

Lemma digits_are_ascii_head s : digits_are_ascii s = true -> wide_digit_head s = false.
Proof.
  destruct s as [|c s]; [reflexivity|]. cbn [digits_are_ascii].
  intros [H _]%andb_true_iff. now apply negb_true_iff in H.
Qed.

Lemma digits_are_ascii_tail c s :
  digits_are_ascii (String c s) = true -> digits_are_ascii s = true.
Proof. cbn [digits_are_ascii]. now intros [_ H]%andb_true_iff. Qed.

Lemma digits_are_ascii_suffix a b :
  digits_are_ascii (a ++ b) = true -> digits_are_ascii b = true.
Proof.
  induction a as [|c a IH]; [easy|]. cbn [String.append].
  intros H. apply IH. exact (digits_are_ascii_tail _ _ H).
Qed.

(** ** The pieces of the pattern *)

Lemma lit_app p s : Re.lit p (p ++ s) = Some s.
Proof.
  induction p as [|a p IH]; simpl; [reflexivity|].
  now rewrite Ascii.eqb_refl.
Qed.

Lemma lit_Some p s r : Re.lit p s = Some r -> s = p ++ r.
Proof.
  revert s. induction p as [|a p IH]; intros s; simpl.
  - now intros [= ->].
  - destruct s as [|b s]; [discriminate|].
    destruct (Ascii.eqb_spec a b) as [->|]; [|discriminate].
    intros H. now rewrite (IH _ H).
Qed.

Lemma digit_not_dot c : is_digit c = true -> Ascii.eqb c "." = false.
Proof.
  intros H. destruct (Ascii.eqb_spec c ".") as [->|]; [|reflexivity].
  discriminate H.
Qed.

(** What [\d] takes: some bytes at the head of the text, none of them a
    dot; either one ASCII digit, or bytes that are no ASCII digits. *)
Lemma digit_Some s d r :
  Re.digit s = Some (d, r) ->
  s = d ++ r /\ d <> "" /\ mem "." d = false
  /\ ((exists c, d = String c "" /\ is_digit c = true) \/ all_digits d = false).
Proof.
  unfold Re.digit. destruct s as [|c0 r0]; [discriminate|].
  destruct (is_digit c0) eqn:E0.
  { intros [= <- <-]. repeat split; [discriminate| |left; now exists c0].
    cbn [mem]. now rewrite (digit_not_dot _ E0). }
  assert (forall x, all_digits (String c0 x) = false) as Hnd
    by (intros x; cbn [all_digits]; now rewrite E0).
  destruct r0 as [|c1 r1]; [discriminate|].
  destruct (decimal2 c0 c1) eqn:E2.
  { intros [= <- <-]. destruct (decimal2_high _ _ E2) as [H0 H1].
    repeat split; [discriminate| |right; apply Hnd].
    cbn [mem]. now rewrite !high_not_dot. }
  destruct r1 as [|c2 r2]; [discriminate|].
  destruct (decimal3 c0 c1 c2) eqn:E3.
  { intros [= <- <-]. destruct (decimal3_high _ _ _ E3) as (H0 & H1 & H2).
    repeat split; [discriminate| |right; apply Hnd].
    cbn [mem]. now rewrite !high_not_dot. }
  destruct r2 as [|c3 r3]; [discriminate|].
  destruct (decimal4 c0 c1 c2 c3) eqn:E4; [|discriminate].
  intros [= <- <-]. destruct (decimal4_high _ _ _ _ E4) as (H0 & H1 & H2 & H3).
  repeat split; [discriminate| |right; apply Hnd].
  cbn [mem]. now rewrite !high_not_dot.
Qed.

(** On a byte below 128, [\d] is [0-9]. *)
Lemma digit_low_eq c r :
  byte_in 0 127 c = true ->
  Re.digit (String c r) = if is_digit c then Some (String c "", r) else None.
Proof.
  intros H. unfold Re.digit. destruct (is_digit c); [reflexivity|].
  destruct r as [|c1 [|c2 [|c3 r]]];
    rewrite ?(decimal2_low c _ H), ?(decimal3_low c _ _ H), ?(decimal4_low c _ _ _ H);
    reflexivity.
Qed.

(** Where no digit of several bytes is at the head, [\d] is [0-9]. *)
Lemma digit_narrow s :
  wide_digit_head s = false ->
  Re.digit s =
    match s with
    | String c r => if is_digit c then Some (String c "", r) else None
    | "" => None
    end.
Proof.
  unfold wide_digit_head, Re.digit. destruct s as [|c0 r0]; [reflexivity|].
  destruct (is_digit c0); [reflexivity|].
  destruct r0 as [|c1 r1]; [reflexivity|].
  intros [-> H]%orb_false_iff.
  destruct r1 as [|c2 r2]; [reflexivity|].
  apply orb_false_iff in H as [-> H].
  destruct r2 as [|c3 r3]; [reflexivity|]. now rewrite H.
Qed.

(** The run of digits is one digit and the run that follows it. *)
Lemma span_digits_eq s :
  Re.span_digits s =
    match Re.digit s with
    | Some (d, r) => (d ++ (Re.span_digits r).1, (Re.span_digits r).2)
    | None => ("", s)
    end.
Proof.
  destruct s as [|c0 r0]; [reflexivity|].
  cbn [Re.span_digits Re.digit]. destruct (is_digit c0); [reflexivity|].
  destruct r0 as [|c1 r1]; [reflexivity|]. destruct (decimal2 c0 c1); [reflexivity|].
  destruct r1 as [|c2 r2]; [reflexivity|]. destruct (decimal3 c0 c1 c2); [reflexivity|].
  destruct r2 as [|c3 r3]; [reflexivity|]. destruct (decimal4 c0 c1 c2 c3); reflexivity.
Qed.

Lemma mem_app c a b : mem c (a ++ b) = mem c a || mem c b.
Proof.
  induction a as [|x a IH]; [reflexivity|]. cbn [String.append mem].
  rewrite IH. now rewrite orb_assoc.
Qed.

(** What [\d+] takes holds no dot, whatever the text. *)
Lemma span_digits_split s :
  s = (Re.span_digits s).1 ++ (Re.span_digits s).2
  /\ mem "." (Re.span_digits s).1 = false.
Proof.
  remember (String.length s) as n eqn:Hn.
  revert s Hn. induction n as [n IH] using lt_wf_ind. intros s ->.
  rewrite span_digits_eq. destruct (Re.digit s) as [[d r]|] eqn:E; [|easy].
  apply digit_Some in E as (-> & Hne & Hdot & _).
  destruct (IH (String.length r)) with (s := r) as [H1 H2]; [|reflexivity|].
  - rewrite length_app_s. destruct d; [congruence | simpl; lia].
  - cbn [fst snd]. split.
    + rewrite app_assoc_s. now rewrite <- H1.
    + now rewrite mem_app, Hdot, H2.
Qed.

Lemma span_digits_low c r :
  byte_in 0 127 c = true ->
  Re.span_digits (String c r) =
    if is_digit c then (String c (Re.span_digits r).1, (Re.span_digits r).2)
    else ("", String c r).
Proof.
  intros H. rewrite span_digits_eq, (digit_low_eq _ _ H).
  destruct (is_digit c); reflexivity.
Qed.

Lemma span_digits_narrow c r :
  wide_digit_head (String c r) = false ->
  Re.span_digits (String c r) =
    if is_digit c then (String c (Re.span_digits r).1, (Re.span_digits r).2)
    else ("", String c r).
Proof.
  intros H. rewrite span_digits_eq, (digit_narrow _ H).
  destruct (is_digit c); reflexivity.
Qed.

(** In text whose decimal digits are ASCII, [\d+] takes the run of
    [0-9]. *)
Lemma span_digits_spec s :
  digits_are_ascii s = true ->
  s = (Re.span_digits s).1 ++ (Re.span_digits s).2 /\
  all_digits (Re.span_digits s).1 = true /\
  head_is_digit (Re.span_digits s).2 = false.
Proof.
  intros Ha. split; [apply span_digits_split|].
  induction s as [|c s IH]; [easy|].
  rewrite (span_digits_narrow _ _ (digits_are_ascii_head _ Ha)).
  apply digits_are_ascii_tail in Ha.
  destruct (is_digit c) eqn:E; cbn [fst snd].
  - destruct (IH Ha) as [IH1 IH2]. cbn [all_digits]. now rewrite E.
  - cbn [all_digits head_is_digit]. now rewrite E.
Qed.

Lemma span_digits_app d r :
  all_digits d = true -> head_is_digit r = false -> wide_digit_head r = false ->
  Re.span_digits (d ++ r) = (d, r).
Proof.
  intros Hd Hr Ha. induction d as [|c d IH]; cbn [String.append].
  - destruct r as [|x r]; [reflexivity|]. cbn [head_is_digit] in Hr.
    rewrite (span_digits_narrow _ _ Ha). now rewrite Hr.
  - cbn [all_digits] in Hd. apply andb_true_iff in Hd as [Hc Hd].
    rewrite (span_digits_low _ _ (digit_low _ Hc)), Hc, (IH Hd). reflexivity.
Qed.

Lemma digits_app d r :
  d <> "" -> all_digits d = true -> head_is_digit r = false ->
  wide_digit_head r = false ->
  Re.digits (d ++ r) = Some (d, r).
Proof.
  intros Hne Hd Hr Ha. unfold Re.digits. rewrite (span_digits_app _ _ Hd Hr Ha).
  destruct d; [congruence | reflexivity].
Qed.

(** What [\d+] takes, whatever the text. *)
Lemma digits_split s d r :
  Re.digits s = Some (d, r) -> s = d ++ r /\ d <> "" /\ mem "." d = false.
Proof.
  unfold Re.digits. intros H.
  destruct (span_digits_split s) as (H1 & H2).
  destruct (Re.span_digits s) as [d' r']; cbn [fst snd] in *.
  destruct d' as [|c d']; [discriminate|].
  injection H as <- <-. repeat split; try assumption. discriminate.
Qed.

Lemma digits_Some s d r :
  digits_are_ascii s = true ->
  Re.digits s = Some (d, r) ->
  s = d ++ r /\ d <> "" /\ all_digits d = true /\ head_is_digit r = false.
Proof.
  unfold Re.digits. intros Ha H.
  destruct (span_digits_spec s Ha) as (H1 & H2 & H3).
  destruct (Re.span_digits s) as [d' r']; cbn [fst snd] in *.
  destruct d' as [|c d']; [discriminate|].
  injection H as <- <-. repeat split; try assumption. discriminate.
Qed.

#[local] Arguments Re.lit : simpl never.
#[local] Arguments Re.digit : simpl never.
#[local] Arguments Re.digits : simpl never.
#[local] Arguments Re.match_here : simpl never.

(** [match_here] with its sequence of pieces written as nested cases. *)
Lemma match_here_eq s :
  Re.match_here s =
    match Re.lit "Version: " s with
    | Some r0 =>
        match Re.digit r0 with
        | Some (ma, r1) =>
            match Re.lit "." r1 with
            | Some r2 =>
                match Re.digits r2 with
                | Some (mi, r3) =>
                    match Re.lit "." r3 with
                    | Some r4 =>
                        match Re.digits r4 with
                        | Some (pa, _) =>
                            Some {| Re.major := ma; Re.minor := mi; Re.patch := pa |}
                        | None => None
                        end
                    | None => None
                    end
                | None => None
                end
            | None => None
            end
        | None => None
        end
    | None => None
    end.
Proof.
  unfold Re.match_here.
  destruct (Re.lit "Version: " s) as [r0|]; [|reflexivity]. simpl.
  destruct (Re.digit r0) as [[ma r1]|]; [|reflexivity]. simpl.
  destruct (Re.lit "." r1) as [r2|]; [|reflexivity]. simpl.
  destruct (Re.digits r2) as [[mi r3]|]; [|reflexivity]. simpl.
  destruct (Re.lit "." r3) as [r4|]; [|reflexivity]. simpl.
  destruct (Re.digits r4) as [[pa r5]|]; reflexivity.
Qed.

Lemma digits_are_ascii_version_line c mi pa rest :
  digits_are_ascii (version_line c mi pa rest) = true ->
  digits_are_ascii rest = true.
Proof.
  unfold version_line. intros Ha. apply digits_are_ascii_suffix in Ha.
  apply digits_are_ascii_tail in Ha.
  now do 4 apply digits_are_ascii_suffix in Ha.
Qed.

(** The match at the head of a version line whose patch digits are followed
    by no further digit. *)
Lemma match_here_complete c mi pa rest :
  is_digit c = true -> mi <> "" -> all_digits mi = true ->
  pa <> "" -> all_digits pa = true -> head_is_digit rest = false ->
  wide_digit_head rest = false ->
  Re.match_here (version_line c mi pa rest)
  = Some {| Re.major := String c ""; Re.minor := mi; Re.patch := pa |}.
Proof.
  intros Hc Hmi1 Hmi2 Hpa1 Hpa2 Hrest Ha.
  rewrite match_here_eq. unfold version_line. rewrite lit_app.
  rewrite (digit_low_eq _ _ (digit_low _ Hc)), Hc, lit_app.
  rewrite (digits_app mi ("." ++ pa ++ rest)); [|assumption..|reflexivity|].
  - rewrite lit_app, (digits_app pa rest); [|assumption..]. reflexivity.
  - change ("." ++ pa ++ rest) with (String "." (pa ++ rest)).
    now apply wide_digit_head_low.
Qed.

(** What a match at the head of [s] says about [s], whatever the text. *)
Lemma match_here_split s g :
  Re.match_here s = Some g ->
  mem "." (Re.major g) = false /\ mem "." (Re.minor g) = false
  /\ mem "." (Re.patch g) = false
  /\ Re.minor g <> "" /\ Re.patch g <> ""
  /\ ((exists c, Re.major g = String c "" /\ is_digit c = true)
      \/ all_digits (Re.major g) = false)
  /\ exists rest,
       s = "Version: " ++ Re.major g ++ "." ++ Re.minor g ++ "." ++ Re.patch g ++ rest.
Proof.
  rewrite match_here_eq. intros H.
  destruct (Re.lit "Version: " s) as [r0|] eqn:E0; [|discriminate].
  apply lit_Some in E0 as ->.
  destruct (Re.digit r0) as [[ma r1]|] eqn:Ed; [|discriminate].
  apply digit_Some in Ed as (-> & _ & Hma & Hma').
  destruct (Re.lit "." r1) as [r2|] eqn:E1; [|discriminate].
  apply lit_Some in E1 as ->.
  destruct (Re.digits r2) as [[mi r3]|] eqn:E2; [|discriminate].
  apply digits_split in E2 as (-> & Hmi1 & Hmi2).
  destruct (Re.lit "." r3) as [r4|] eqn:E3; [|discriminate].
  apply lit_Some in E3 as ->.
  destruct (Re.digits r4) as [[pa r5]|] eqn:E4; [|discriminate].
  apply digits_split in E4 as (-> & Hpa1 & Hpa2).
  injection H as <-. cbn [Re.major Re.minor Re.patch].
  repeat split; try assumption. now exists r5.
Qed.

(** What a match at the head of a text whose decimal digits are ASCII says
    about it. *)
Lemma match_here_Some s g :
  digits_are_ascii s = true ->
  Re.match_here s = Some g ->
  exists c rest,
    Re.major g = String c "" /\ is_digit c = true /\
    Re.minor g <> "" /\ all_digits (Re.minor g) = true /\
    Re.patch g <> "" /\ all_digits (Re.patch g) = true /\
    head_is_digit rest = false /\
    s = version_line c (Re.minor g) (Re.patch g) rest.
Proof.
  rewrite match_here_eq. intros Ha H.
  destruct (Re.lit "Version: " s) as [r0|] eqn:E0; [|discriminate].
  apply lit_Some in E0 as ->. apply digits_are_ascii_suffix in Ha.
  rewrite (digit_narrow _ (digits_are_ascii_head _ Ha)) in H.
  destruct r0 as [|c r1]; [discriminate|].
  apply digits_are_ascii_tail in Ha.
  destruct (is_digit c) eqn:Ec; [|discriminate].
  destruct (Re.lit "." r1) as [r2|] eqn:E1; [|discriminate].
  apply lit_Some in E1 as ->.
  apply digits_are_ascii_suffix in Ha.
  destruct (Re.digits r2) as [[mi r3]|] eqn:E2; [|discriminate].
  apply (digits_Some _ _ _ Ha) in E2 as (-> & Hmi1 & Hmi2 & _).
  apply digits_are_ascii_suffix in Ha.
  destruct (Re.lit "." r3) as [r4|] eqn:E3; [|discriminate].
  apply lit_Some in E3 as ->.
  apply digits_are_ascii_suffix in Ha.
  destruct (Re.digits r4) as [[pa r5]|] eqn:E4; [|discriminate].
  apply (digits_Some _ _ _ Ha) in E4 as (-> & Hpa1 & Hpa2 & Hrest).
  injection H as <-. cbn [Re.major Re.minor Re.patch].
  exists c, r5. repeat split; try assumption.
Qed.

Lemma match_here_matches_fwd s g :
  digits_are_ascii s = true -> Re.match_here s = Some g -> matches s.
Proof.
  intros Ha (c & rest & _ & ? & ? & ? & ? & ? & _ & ?)%match_here_Some;
    [|exact Ha].
  now exists c, (Re.minor g), (Re.patch g), rest.
Qed.

(** A run of ASCII digits at the head of any text is taken whole, with the
    digits that follow it. *)
Lemma span_digits_digits d r :
  all_digits d = true ->
  Re.span_digits (d ++ r) = (d ++ (Re.span_digits r).1, (Re.span_digits r).2).
Proof.
  intros Hd. induction d as [|c d IH]; cbn [String.append].
  - now destruct (Re.span_digits r).
  - cbn [all_digits] in Hd. apply andb_true_iff in Hd as [Hc Hd].
    rewrite (span_digits_low _ _ (digit_low _ Hc)), Hc, (IH Hd). reflexivity.
Qed.

Lemma digits_digits d r :
  d <> "" -> all_digits d = true ->
  Re.digits (d ++ r) = Some (d ++ (Re.span_digits r).1, (Re.span_digits r).2).
Proof.
  intros Hne Hd. unfold Re.digits. rewrite (span_digits_digits _ _ Hd).
  destruct d; [congruence | reflexivity].
Qed.

(** Where the pattern matches, [match_here] finds a match, whatever the
    text: it takes the digits that follow the patch as well. *)
Lemma match_here_matches s :
  matches s -> exists g, Re.match_here s = Some g.
Proof.
  intros (c & mi & pa & rest & Hc & Hmi1 & Hmi2 & Hpa1 & Hpa2 & ->).
  rewrite match_here_eq. unfold version_line. rewrite lit_app.
  rewrite (digit_low_eq _ _ (digit_low _ Hc)), Hc, lit_app.
  rewrite (digits_digits mi _ Hmi1 Hmi2).
  change ("." ++ pa ++ rest) with (String "." (pa ++ rest)).
  rewrite (span_digits_low "." _ eq_refl). cbn [is_digit fst snd].
  change (is_digit ".") with false. cbv iota. cbn [fst snd].
  change (String "." (pa ++ rest)) with ("." ++ pa ++ rest).
  rewrite lit_app, (digits_digits pa _ Hpa1 Hpa2). now eexists.
Qed.

(** ** [re.search] *)

Lemma search_Some s g :
  Re.search s = Some g -> exists pre s', s = pre ++ s' /\ Re.match_here s' = Some g.
Proof.
  induction s as [|x s IH]; simpl.
  - discriminate.
  - destruct (Re.match_here (String x s)) eqn:E.
    + intros [= <-]. now exists "", (String x s).
    + intros (pre & s' & -> & H)%IH. now exists (String x pre), s'.
Qed.

(** Where the pattern matches somewhere, [search] finds a match, whatever
    the text. *)
Lemma search_occurs s : occurs s -> exists g, Re.search s = Some g.
Proof.
  intros (pre & s' & -> & Hm). induction pre as [|x pre IH].
  - apply match_here_matches in Hm as [g Hg]. exists g.
    destruct s' as [|y s']; [now vm_compute in Hg|].
    simpl. now rewrite Hg.
  - simpl. destruct (Re.match_here (String x (pre ++ s'))) as [g|]; [now exists g|].
    exact IH.
Qed.

(** In text whose decimal digits are ASCII, [search] finds nothing exactly
    when the pattern matches nowhere. *)
Lemma search_None s :
  digits_are_ascii s = true -> Re.search s = None <-> ~ occurs s.
Proof.
  intros Ha. split.
  - intros H [g Hg]%search_occurs. congruence.
  - intros H. induction s as [|x s IH]; [reflexivity|]. simpl.
    destruct (Re.match_here (String x s)) as [g|] eqn:E.
    + exfalso. apply H. exists "", (String x s). split; [reflexivity|].
      exact (match_here_matches_fwd _ _ Ha E).
    + apply digits_are_ascii_tail in Ha.
      apply (IH Ha). intros (pre & s' & -> & Hm). apply H.
      now exists (String x pre), s'.
Qed.

(** [search] returns the match at the leftmost position that has one. *)
Lemma search_leftmost pre s g :
  digits_are_ascii (pre ++ s) = true ->
  Re.match_here s = Some g ->
  (forall pre' s', pre ++ s = pre' ++ s' -> matches s' ->
     (String.length pre <= String.length pre')%nat) ->
  Re.search (pre ++ s) = Some g.
Proof.
  intros Ha Hg. induction pre as [|x pre IH]; intros Hleft.
  - simpl. destruct s; [now vm_compute in Hg | simpl; now rewrite Hg].
  - simpl. destruct (Re.match_here (String x (pre ++ s))) as [g'|] eqn:E.
    + exfalso. apply (match_here_matches_fwd _ _ Ha) in E.
      specialize (Hleft "" (String x (pre ++ s)) eq_refl E).
      simpl in Hleft. lia.
    + cbn [String.append] in Ha. apply digits_are_ascii_tail in Ha.
      apply (IH Ha). intros pre' s' Hs Hm.
      specialize (Hleft (String x pre') s'). simpl in Hleft.
      rewrite Hs in Hleft. specialize (Hleft eq_refl Hm). lia.
Qed.

(** Where the pattern is, there is a capital V. *)
Lemma matches_head s : matches s -> head_is "V" s = true.
Proof. intros (c & mi & pa & rest & _ & _ & _ & _ & _ & ->). reflexivity. Qed.

Lemma occurs_has_V out : occurs out -> mem "V" out = true.
Proof.
  intros (pre & s & -> & Hm). apply matches_head in Hm.
  induction pre as [|x pre IH]; simpl.
  - destruct s as [|y s]; [discriminate|]. simpl in *. now rewrite Hm.
  - rewrite IH. apply orb_true_r.
Qed.

(** What [search] captures is part of the text. *)
Lemma search_lengths s g :
  Re.search s = Some g ->
  (String.length (Re.minor g) <= String.length s)%nat
  /\ (String.length (Re.patch g) <= String.length s)%nat.
Proof.
  intros (pre & s' & -> & H)%search_Some.
  apply match_here_split in H as (_ & _ & _ & _ & _ & _ & rest & ->).
  rewrite !length_app_s. lia.
Qed.

(** A match begins with a capital V. *)
Lemma search_has_V s g : Re.search s = Some g -> mem "V" s = true.
Proof.
  intros (pre & s' & -> & H)%search_Some.
  apply match_here_split in H as (_ & _ & _ & _ & _ & _ & rest & ->).
  rewrite mem_app. apply orb_true_iff. right. reflexivity.
Qed.

(** ** [parse_version] on what the pattern captures *)

Lemma split_line sep a r :
  mem sep a = false -> split sep (a ++ String sep r) = a :: split sep r.
Proof.
  induction a as [|c a IH]; cbn [String.append split mem].
  - now rewrite Ascii.eqb_refl.
  - intros [Hc Ha]%orb_false_iff. rewrite Hc, (IH Ha). reflexivity.
Qed.

Lemma split_last sep a : mem sep a = false -> split sep a = [a].
Proof.
  induction a as [|c a IH]; cbn [split mem]; [reflexivity|].
  intros [Hc Ha]%orb_false_iff. rewrite Hc, (IH Ha). reflexivity.
Qed.

Lemma all_digits_no_dot d : all_digits d = true -> mem "." d = false.
Proof.
  induction d as [|c d IH]; [reflexivity|]. cbn [all_digits mem].
  intros [Hc Hd]%andb_true_iff. now rewrite (digit_not_dot _ Hc), (IH Hd).
Qed.

Lemma release_part_digits d :
  d <> "" -> all_digits d = true -> release_part d = true.
Proof.
  intros Hne Hd. unfold release_part. rewrite Hd.
  destruct d; [congruence | reflexivity].
Qed.

Lemma release_part_all_digits d : release_part d = true -> all_digits d = true.
Proof. unfold release_part. now intros [_ H]%andb_true_iff. Qed.

Lemma too_long_length p :
  too_long p = false <-> (String.length p <= 4300)%nat.
Proof.
  unfold too_long, int_max_str_digits. rewrite N.ltb_ge. lia.
Qed.

Lemma too_long_short p : (String.length p <= 4300)%nat -> too_long p = false.
Proof. apply too_long_length. Qed.

Lemma find_fits mi pa :
  (String.length mi <= 4300)%nat -> (String.length pa <= 4300)%nat ->
  find too_long [mi; pa] = None.
Proof.
  intros H1 H2. cbn [find]. now rewrite !too_long_short.
Qed.

(** [parse_version] on three texts without a dot, joined by dots. *)
Lemma parse_version_join ma mi pa :
  mem "." ma = false -> mem "." mi = false -> mem "." pa = false ->
  parse_version (join "." [ma; mi; pa])
  = if forallb release_part [ma; mi; pa] then
      match find too_long [ma; mi; pa] with
      | Some p => Raise (ValueError (int_limit_msg p))
      | None => Ok {| release := [int ma; int mi; int pa] |}
      end
    else Raise (InvalidVersion (join "." [ma; mi; pa])).
Proof.
  intros H1 H2 H3. unfold parse_version, join.
  change (String.concat "." [ma; mi; pa]) with (ma ++ String "." (mi ++ String "." pa)).
  rewrite (split_line _ ma), (split_line _ mi), (split_last _ pa) by assumption.
  reflexivity.
Qed.

Lemma parse_version_triple ma mi pa :
  ma <> "" -> all_digits ma = true ->
  mi <> "" -> all_digits mi = true ->
  pa <> "" -> all_digits pa = true ->
  parse_version (join "." [ma; mi; pa])
  = match find too_long [ma; mi; pa] with
    | Some p => Raise (ValueError (int_limit_msg p))
    | None => Ok {| release := [int ma; int mi; int pa] |}
    end.
Proof.
  intros H1 H2 H3 H4 H5 H6.
  rewrite parse_version_join by now apply all_digits_no_dot.
  cbn [forallb]. now rewrite !release_part_digits by assumption.
Qed.

(** The version that [parse_version] makes of a match, when it makes one:
    the major number is one ASCII digit, the others are runs of ASCII
    digits. *)
Lemma parse_match_Ok s g v :
  Re.match_here s = Some g ->
  parse_version (join "." [Re.major g; Re.minor g; Re.patch g]) = Ok v ->
  (exists c, Re.major g = String c "" /\ is_digit c = true)
  /\ all_digits (Re.minor g) = true /\ all_digits (Re.patch g) = true
  /\ v = {| release := [int (Re.major g); int (Re.minor g); int (Re.patch g)] |}.
Proof.
  intros (H1 & H2 & H3 & _ & _ & Hma & _)%match_here_split.
  rewrite (parse_version_join _ _ _ H1 H2 H3).
  destruct (forallb release_part _) eqn:E; [|discriminate].
  cbn [forallb] in E. apply andb_true_iff in E as [Ea E].
  apply andb_true_iff in E as [Eb E]. apply andb_true_iff in E as [Ec _].
  apply release_part_all_digits in Ea, Eb, Ec.
  destruct (find too_long _); [discriminate|]. intros [= <-].
  repeat split; try assumption.
  destruct Hma as [Hma|Hma]; [exact Hma | congruence].
Qed.

(** What [parse_version] raises. *)
Lemma parse_version_Raise s e :
  parse_version s = Raise e ->
  e = InvalidVersion s \/ exists p, e = ValueError (int_limit_msg p).
Proof.
  unfold parse_version. destruct (forallb release_part _).
  - destruct (find too_long _) as [p|]; [|discriminate].
    intros [= <-]. right. now exists p.
  - intros [= <-]. now left.
Qed.

(** On a match in text whose decimal digits are ASCII, [parse_version] fails
    only on the limit of [int]. *)
Lemma parse_match s g :
  digits_are_ascii s = true ->
  Re.match_here s = Some g ->
  parse_version (join "." [Re.major g; Re.minor g; Re.patch g])
  = match find too_long [Re.minor g; Re.patch g] with
    | Some p => Raise (ValueError (int_limit_msg p))
    | None =>
        Ok {| release := [int (Re.major g); int (Re.minor g); int (Re.patch g)] |}
    end.
Proof.
  intros Ha (c & rest & Hma & Hc & ? & ? & ? & ? & _)%match_here_Some; [|exact Ha].
  rewrite parse_version_triple; try assumption.
  - rewrite Hma. reflexivity.
  - rewrite Hma. discriminate.
  - rewrite Hma. simpl. now rewrite Hc.
Qed.

Lemma parse_search s g :
  digits_are_ascii s = true ->
  Re.search s = Some g ->
  parse_version (join "." [Re.major g; Re.minor g; Re.patch g])
  = match find too_long [Re.minor g; Re.patch g] with
    | Some p => Raise (ValueError (int_limit_msg p))
    | None =>
        Ok {| release := [int (Re.major g); int (Re.minor g); int (Re.patch g)] |}
    end.
Proof.
  intros Ha (pre & s' & -> & H)%search_Some.
  apply digits_are_ascii_suffix in Ha. exact (parse_match _ _ Ha H).
Qed.

(** ** The order of versions *)

(** On releases of three numbers, [lt] is the order of triples. *)
Lemma lt_triple a b c x y z :
  lt {| release := [a; b; c] |} {| release := [x; y; z] |} = true
  <-> triple_lt (a, b, c) (x, y, z).
Proof.
  unfold lt, cmpkey, triple_lt. cbn [release rev app].
  destruct c as [|c], b as [|b], a as [|a], z as [|z], y as [|y], x as [|x];
    cbn [dropwhile_zero rev app tuple_lt];
    repeat (case N.ltb_spec; intros); split; intros;
    try lia; try discriminate; try reflexivity.
Qed.

Lemma parse_floor : parse_version "6.0.0" = Ok {| release := [6; 0; 0]%N |}.
Proof. reflexivity. Qed.

(** ** Runs of [version] and [_exec_command] *)

Lemma version_cached w self v :
  _version self = Some v -> version w self = (Ok (Some v), w, self).
Proof.
  intros H. unfold version, mbind, M_bind, bind, get_self. rewrite H. cbn.
  now rewrite H.
Qed.

(** What [version] does when nothing is stored, by what the binary does. *)
Lemma version_fresh w self :
  _version self = None ->
  version w self =
    match programs w (invocations w) [executable self; "-Vv"] with
    | NotRunnable errno =>
        (Raise (RuntimeError (does_not_point (executable self)) (Some (OSError errno))),
         tick w, self)
    | Exited rc out =>
        if rc =? 0 then
          if valid_utf8 out then
            match Re.search out with
            | None => (Raise (RuntimeError (not_recognized out) None), tick w, self)
            | Some m =>
                match parse_version (join "." [Re.major m; Re.minor m; Re.patch m]) with
                | Raise e => (Raise e, tick w, self)
                | Ok v => (Ok (Some v), tick w, set_version self (Some v))
                end
            end
          else (Raise UnicodeDecodeError, tick w, self)
        else (Raise (CalledProcessError rc), tick w, self)
    end.
Proof.
  intros H. unfold version, mbind, M_bind, bind, get_self. rewrite H.
  unfold truthy, negb, fmap, M_fmap, bind, try_except_OSError, call, check_output,
    raise, lift, put_self, mret, M_ret, ret, tick, decode.
  destruct (programs w (invocations w) [executable self; "-Vv"]) as [rc out|errno];
    [|reflexivity].
  destruct (rc =? 0); [|reflexivity].
  destruct (valid_utf8 out); [|reflexivity].
  destruct (Re.search out) as [m|] eqn:E; [|reflexivity].
  destruct (parse_version _) as [v|e] eqn:Ep; [reflexivity|].
  destruct (parse_version_Raise _ _ Ep) as [->|[p ->]]; reflexivity.
Qed.

(** The same on output that is text whose decimal digits are ASCII, where a
    match holds ASCII digits only. *)
Lemma version_fresh_text w self out :
  _version self = None ->
  programs w (invocations w) [executable self; "-Vv"] = Exited 0 out ->
  valid_utf8 out = true ->
  digits_are_ascii out = true ->
  version w self =
    match Re.search out with
    | None => (Raise (RuntimeError (not_recognized out) None), tick w, self)
    | Some m =>
        match find too_long [Re.minor m; Re.patch m] with
        | Some p => (Raise (ValueError (int_limit_msg p)), tick w, self)
        | None =>
            let v :=
              {| release := [int (Re.major m); int (Re.minor m); int (Re.patch m)] |} in
            (Ok (Some v), tick w, set_version self (Some v))
        end
    end.
Proof.
  intros Hnone Hrun Hutf Ha. rewrite (version_fresh _ _ Hnone), Hrun.
  change (0 =? 0) with true. cbv iota. rewrite Hutf.
  destruct (Re.search out) as [m|] eqn:E; [|reflexivity].
  rewrite (parse_search _ _ Ha E). destruct (find too_long _); reflexivity.
Qed.

(** Case analysis on a run of [version] that starts with nothing stored. *)
Ltac version_cases :=
  match goal with
  | |- context [programs ?w ?n ?a] =>
      let rc := fresh "rc" in
      let out := fresh "out" in
      let errno := fresh "errno" in
      let Hrc := fresh "Hrc" in
      let Hutf := fresh "Hutf" in
      let m := fresh "m" in
      let Hm := fresh "Hm" in
      let v := fresh "v" in
      let e := fresh "e" in
      let Hp := fresh "Hp" in
      destruct (programs w n a) as [rc out|errno];
      [ destruct (rc =? 0) eqn:Hrc;
        [ destruct (valid_utf8 out) eqn:Hutf;
          [ destruct (Re.search out) as [m|] eqn:Hm;
            [ destruct (parse_version
                          (join "." [Re.major m; Re.minor m; Re.patch m]))
                as [v|e] eqn:Hp | ]
          | ]
        | ]
      | ]
  end.

(** The property never returns [None]: what it returns is stored. *)
Lemma version_Ok w self r w1 self1 :
  version w self = (Ok r, w1, self1) -> exists v, r = Some v /\ _version self1 = Some v.
Proof.
  destruct (_version self) as [v0|] eqn:E.
  - rewrite (version_cached _ _ _ E). intros [= <- _ <-]. now exists v0.
  - rewrite (version_fresh _ _ E). version_cases; try discriminate.
    intros [= <- _ <-]. now eexists.
Qed.

Lemma version_Raise w self e w1 self1 :
  version w self = (Raise e, w1, self1) ->
  _version self = None /\ self1 = self /\ w1 = tick w.
Proof.
  destruct (_version self) as [v0|] eqn:E.
  - rewrite (version_cached _ _ _ E). discriminate.
  - rewrite (version_fresh _ _ E). version_cases; try discriminate;
      now intros [= _ <- <-].
Qed.

(** A run of [version] changes no attribute but [_version]. *)
Lemma version_attributes w self r w1 self1 :
  version w self = (r, w1, self1) ->
  self1 = self \/ exists v, self1 = set_version self (Some v).
Proof.
  destruct (_version self) as [v0|] eqn:E.
  - rewrite (version_cached _ _ _ E). intros [= _ _ <-]. now left.
  - rewrite (version_fresh _ _ E). version_cases; intros [= _ _ <-];
      try (now left). right. now eexists.
Qed.

(** A version detected from the binary has three numbers, the first of them
    the value of one digit. *)
Lemma version_detected w self v w1 self1 :
  _version self = None ->
  version w self = (Ok (Some v), w1, self1) ->
  exists c mi pa,
    is_digit c = true /\ all_digits mi = true /\ all_digits pa = true
    /\ release v = [int (String c ""); int mi; int pa].
Proof.
  intros Hnone. rewrite (version_fresh _ _ Hnone). version_cases; try discriminate.
  intros [= <- _ _].
  destruct (search_Some _ _ Hm) as (pre & s' & _ & Hs).
  destruct (parse_match_Ok _ _ _ Hs Hp) as ((c & Hma & Hc) & Hmi & Hpa & ->).
  exists c, (Re.minor m), (Re.patch m). rewrite <- Hma. now repeat split.
Qed.

Lemma version_detected_triple w self v w1 self1 :
  _version self = None ->
  version w self = (Ok (Some v), w1, self1) ->
  exists a b c, release v = [a; b; c].
Proof.
  intros Hnone Hv.
  destruct (version_detected _ _ _ _ _ Hnone Hv) as (c & mi & pa & _ & _ & _ & ->).
  now eexists _, _, _.
Qed.

Lemma command_text_set_version self v :
  command_text (set_version self v) = command_text self.
Proof. reflexivity. Qed.

Lemma exec_command_eq w self :
  _exec_command w self =
    match version w self with
    | (Ok (Some v), w1, self1) =>
        if lt v {| release := [6; 0; 0]%N |}
        then (Raise (RuntimeError not_supported None), w1, self1)
        else (Ok (command_text self1), w1, self1)
    | (Ok None, w1, self1) =>
        (Raise (TypeError "'<' not supported between instances of 'NoneType' and 'Version'"),
         w1, self1)
    | (Raise e, w1, self1) => (Raise e, w1, self1)
    end.
Proof.
  unfold _exec_command, mbind, M_bind, bind.
  destruct (version w self) as [[[[v|]|e] w1] self1]; try reflexivity.
  unfold lift. rewrite parse_floor. unfold version_lt.
  destruct (lt v _); reflexivity.
Qed.

(** The command of a supported version is the text for the object's own
    attributes. *)
Lemma exec_command_supported w self v w1 self1 a b c :
  version w self = (Ok (Some v), w1, self1) ->
  release v = [a; b; c] ->
  ~ triple_lt (a, b, c) (6, 0, 0)%N ->
  _exec_command w self = (Ok (command_text self), w1, self1).
Proof.
  intros Hv Hr Hge. rewrite exec_command_eq, Hv.
  destruct v as [r]. simpl in Hr. subst r.
  destruct (lt _ _) eqn:E; [now apply lt_triple in E|].
  destruct (version_attributes _ _ _ _ _ Hv) as [->|[v' ->]]; reflexivity.
Qed.

(** When command building raises, the constructor raises the same exception
    and returns no object: there is nothing the supervisor could start. *)
Lemma init_propagates e w' self'
    (executable host : string) (port tcp_port : Z)
    (pidfile logs_path works_path cluster_name network_publish_host
       index_store_type : string)
    (timeout : Z) (http_auth : option (gmap string value)) (w : World) headers
    (super_init : HTTPExecutor.init) :
  make_headers http_auth = Ok headers ->
  _exec_command w
    {| _version := None; executable := executable; host := host; port := port;
       tcp_port := tcp_port; pidfile := pidfile; logs_path := logs_path;
       works_path := works_path; cluster_name := cluster_name;
       network_publish_host := network_publish_host;
       index_store_type := index_store_type; http_auth := http_auth; base := None |}
  = (Raise e, w', self') ->
  __init__ super_init executable host port tcp_port pidfile logs_path works_path
    cluster_name network_publish_host index_store_type timeout http_auth w
  = (Raise e, w').
Proof.
  intros Hh He. unfold __init__. rewrite Hh, He. reflexivity.
Qed.

(** ** Occurrences of a key in a text made of literals and values *)

Lemma starts_lit_sound h l key tail b :
  head_ok h tail ->
  starts_lit h l key = Some b -> startswith (l ++ tail) key = b.
Proof.
  intros Hh. revert l. induction key as [|k key IH]; intros l; simpl.
  - intros H. injection H as <-. reflexivity.
  - destruct l as [|c l]; simpl.
    + destruct h as [h|]; [|discriminate]. simpl in Hh.
      destruct (Ascii.eqb_spec k h) as [->|]; [|discriminate].
      intros H. injection H as <-.
      destruct tail as [|x tail]; [reflexivity|]. simpl in *.
      rewrite Ascii.eqb_sym, Hh. reflexivity.
    + destruct (Ascii.eqb k c); [|intros H; now injection H as <-]. simpl. apply IH.
Qed.

Lemma occurrences_lit_sound h key l tail n :
  head_ok h tail ->
  occurrences_lit h key l = Some n ->
  occurrences key (l ++ tail) = (n + occurrences key tail)%nat.
Proof.
  intros Hh. revert n. induction l as [|c l IH]; intros n; simpl.
  - now intros [= <-].
  - destruct (starts_lit h (String c l) key) as [b|] eqn:E; [|discriminate].
    destruct (occurrences_lit h key l) as [m|]; [|discriminate].
    intros [= <-]. rewrite (IH m eq_refl).
    pose proof (starts_lit_sound _ _ _ _ _ Hh E) as Hs. simpl in Hs.
    rewrite Hs. lia.
Qed.

Lemma startswith_mem s key c :
  startswith s key = true -> mem c key = true -> mem c s = true.
Proof.
  revert s. induction key as [|k key IH]; intros s; simpl; [discriminate 2|].
  destruct s as [|x s]; [discriminate|].
  intros [Hk Hs]%andb_true_iff [Hc|Hc]%orb_true_iff; simpl.
  - apply Ascii.eqb_eq in Hk as ->. now rewrite Hc.
  - rewrite (IH _ Hs Hc). apply orb_true_r.
Qed.

(** A key cannot start in a value that lacks the key's first character. *)
Lemma occurrences_skip_first k key v rest :
  mem k v = false ->
  occurrences (String k key) (v ++ rest) = occurrences (String k key) rest.
Proof.
  induction v as [|x v IH]; [reflexivity|]. simpl.
  intros [Hx Hv]%orb_false_iff. rewrite (IH Hv).
  rewrite Ascii.eqb_sym, Hx. reflexivity.
Qed.

Lemma startswith_straddle w c tail key :
  mem c key = false ->
  startswith (w ++ String c tail) key = true -> startswith w key = true.
Proof.
  revert w. induction key as [|k key IH]; intros w; simpl; [reflexivity|].
  intros [Hk Hc]%orb_false_iff.
  destruct w as [|y w]; simpl.
  - rewrite Hk. discriminate.
  - intros [-> Hs]%andb_true_iff. simpl. now apply IH.
Qed.

(** A key cannot start in a value that lacks one of the key's characters,
    when the text after the value starts with a character the key lacks. *)
Lemma occurrences_skip c key v rest :
  mem c key = true -> mem c v = false -> head_in rest key = false ->
  occurrences key (v ++ rest) = occurrences key rest.
Proof.
  intros Hck Hcv Hrest.
  induction v as [|x v IH]; [reflexivity|].
  simpl in Hcv. apply orb_false_iff in Hcv as [Hx Hv].
  change (occurrences key (String x v ++ rest))
    with ((if startswith (String x v ++ rest) key then 1 else 0)
          + occurrences key (v ++ rest))%nat.
  rewrite (IH Hv).
  destruct (startswith (String x v ++ rest) key) eqn:E; [|reflexivity].
  exfalso.
  assert (startswith (String x v) key = true) as Hs.
  { destruct rest as [|r rest].
    - now rewrite app_nil_r_s in E.
    - simpl in Hrest. exact (startswith_straddle _ _ _ _ Hrest E). }
  pose proof (startswith_mem _ _ _ Hs Hck) as Hm. simpl in Hm.
  rewrite Hx, Hv in Hm. discriminate.
Qed.

Lemma plain_inv v :
  plain v = true ->
  mem " " v = false /\ mem "=" v = false /\ head_is "-" v = false.
Proof.
  unfold plain. intros [[H1 H2]%andb_true_iff H3]%andb_true_iff.
  apply negb_true_iff in H1, H2, H3. repeat split; try assumption.
  destruct v as [|c v]; [reflexivity|]. simpl in *.
  rewrite Ascii.eqb_sym. now rewrite andb_true_r in H3.
Qed.

Lemma head_ok_app_plain v rest :
  head_is "-" v = false -> head_is "-" rest = false ->
  head_ok (Some "-"%char) (v ++ rest).
Proof. destruct v; simpl; auto. Qed.

(** The text of an integer holds digits, and a hyphen at most. *)
Lemma uint_chars c d :
  mem c (NilEmpty.string_of_uint d) = true -> is_digit c = true.
Proof.
  induction d; cbn [NilEmpty.string_of_uint mem]; try discriminate;
    intros [H|H]%orb_true_iff; auto; apply Ascii.eqb_eq in H as <-; reflexivity.
Qed.

Lemma str_of_int_chars c z :
  mem c (str_of_int z) = true -> is_digit c = true \/ c = "-"%char.
Proof.
  unfold str_of_int.
  assert (forall d, mem c (NilZero.string_of_uint d) = true -> is_digit c = true) as Hu.
  { intros d. destruct d; try apply (uint_chars c).
    cbn [NilZero.string_of_uint mem]. rewrite orb_false_r.
    intros H. apply Ascii.eqb_eq in H as <-. reflexivity. }
  destruct z as [|p|p]; cbn [Z.to_int NilZero.string_of_int].
  - intros H. left. exact (Hu _ H).
  - intros H. left. exact (Hu _ H).
  - cbn [mem]. intros [H|H]%orb_true_iff.
    + apply Ascii.eqb_eq in H as <-. now right.
    + left. exact (Hu _ H).
Qed.

Lemma str_of_int_no c z :
  is_digit c = false -> Ascii.eqb c "-" = false -> mem c (str_of_int z) = false.
Proof.
  intros Hd Hm. destruct (mem c (str_of_int z)) eqn:E; [|reflexivity].
  apply str_of_int_chars in E as [E| ->]; [congruence | discriminate].
Qed.

(** The command text as literals and values in turn. *)
Lemma command_text_chunks self :
  command_text self =
    (nl ++ indent 12) ++ executable self
    ++ " -p " ++ pidfile self
    ++ (nl ++ indent 12 ++ "-E http.port=") ++ str_of_int (port self)
    ++ (nl ++ indent 12 ++ "-E transport.tcp.port=") ++ str_of_int (tcp_port self)
    ++ (nl ++ indent 12 ++ "-E path.logs=") ++ logs_path self
    ++ (nl ++ indent 12 ++ "-E path.data=") ++ works_path self
    ++ (nl ++ indent 12 ++ "-E cluster.name=") ++ cluster_name self
    ++ (nl ++ indent 12 ++ "-E network.host='") ++ network_publish_host self
    ++ ("'" ++ nl ++ indent 12 ++ "-E index.store.type=") ++ index_store_type self
    ++ (nl ++ indent 8).
Proof. reflexivity. Qed.

(** One step across a literal: its occurrences are counted, the rest is left
    to count. *)
Ltac lit_with h H :=
  match goal with
  | |- context [occurrences ?key (?l ++ ?tail)] =>
      let r := eval vm_compute in (occurrences_lit h key l) in
      match r with
      | Some ?n => rewrite (occurrences_lit_sound h key l tail n H eq_refl)
      end
  end.
Ltac lit_known Hv :=
  match goal with
  | |- context [occurrences ?key (?l ++ ?v ++ ?rest)] =>
      lit_with (Some "-"%char) (head_ok_app_plain v rest Hv eq_refl)
  end.
Ltac lit_free := lit_with (@None ascii) I.

(** One step across a value. *)
Ltac skip_eq H :=
  match goal with
  | |- context [occurrences ?key (?v ++ ?rest)] =>
      rewrite (occurrences_skip "="%char key v rest eq_refl H eq_refl)
  end.
Ltac skip_sp H :=
  match goal with
  | |- context [occurrences (String ?k ?key) (?v ++ ?rest)] =>
      rewrite (occurrences_skip_first k key v rest H)
  end.

Ltac split_plain_config H :=
  unfold plain_config in H;
  apply andb_true_iff in H as [H ?I0]; apply plain_inv in I0 as (?I1 & ?I2 & ?I3);
  apply andb_true_iff in H as [H ?H0]; apply plain_inv in H0 as (?H1 & ?H2 & ?H3);
  apply andb_true_iff in H as [H ?C0]; apply plain_inv in C0 as (?C1 & ?C2 & ?C3);
  apply andb_true_iff in H as [H ?W0]; apply plain_inv in W0 as (?W1 & ?W2 & ?W3);
  apply andb_true_iff in H as [H ?L0]; apply plain_inv in L0 as (?L1 & ?L2 & ?L3);
  apply andb_true_iff in H as [H ?P0]; apply plain_inv in P0 as (?P1 & ?P2 & ?P3);
  apply plain_inv in H as (?E1 & ?E2 & ?E3).

Lemma occurrences_pidfile self :
  plain_config self = true ->
  occurrences " -p " (command_text self) = 1%nat.
Proof.
  intros H. split_plain_config H.
  pose proof (str_of_int_no " " (port self) eq_refl eq_refl) as N1.
  pose proof (str_of_int_no " " (tcp_port self) eq_refl eq_refl) as N2.
  rewrite command_text_chunks.
  lit_known E3. skip_sp E1.
  lit_known P3. skip_sp P1.
  lit_free. skip_sp N1.
  lit_free. skip_sp N2.
  lit_free. skip_sp L1.
  lit_free. skip_sp W1.
  lit_free. skip_sp C1.
  lit_free. skip_sp H1.
  lit_free. skip_sp I1.
  reflexivity.
Qed.

Lemma occurrences_setting key self :
  In key ["http.port="; "transport.tcp.port="; "path.logs="; "path.data=";
          "cluster.name="; "network.host="; "index.store.type="] ->
  plain_config self = true ->
  occurrences key (command_text self) = 1%nat.
Proof.
  intros Hkey H. split_plain_config H.
  pose proof (str_of_int_no "=" (port self) eq_refl eq_refl) as N1.
  pose proof (str_of_int_no "=" (tcp_port self) eq_refl eq_refl) as N2.
  rewrite command_text_chunks.
  cbn [In] in Hkey.
  repeat (destruct Hkey as [<-|Hkey]; [
    lit_free; skip_eq E2;
    lit_free; skip_eq P2;
    lit_free; skip_eq N1;
    lit_free; skip_eq N2;
    lit_free; skip_eq L2;
    lit_free; skip_eq W2;
    lit_free; skip_eq C2;
    lit_free; skip_eq H2;
    lit_free; skip_eq I2;
    reflexivity |]).
  contradiction.
Qed.

Ltac reassoc := rewrite ?app_assoc_s; reflexivity.

(** Every setting is in the command text with its value. *)
Lemma command_text_settings self :
  Forall (fun kv => contains (kv.1 ++ kv.2 ++ nl) (command_text self)) (settings self).
Proof.
  unfold settings. repeat apply Forall_cons_2; [..|apply Forall_nil_2]; cbn [fst snd].
  - apply (contains_intro (nl ++ indent 12 ++ executable self)
             _ (indent 12 ++ "-E http.port=" ++ str_of_int (port self)
                ++ nl ++ indent 12 ++ "-E transport.tcp.port=" ++ str_of_int (tcp_port self)
                ++ nl ++ indent 12 ++ "-E path.logs=" ++ logs_path self
                ++ nl ++ indent 12 ++ "-E path.data=" ++ works_path self
                ++ nl ++ indent 12 ++ "-E cluster.name=" ++ cluster_name self
                ++ nl ++ indent 12 ++ "-E network.host='" ++ network_publish_host self ++ "'"
                ++ nl ++ indent 12 ++ "-E index.store.type=" ++ index_store_type self
                ++ nl ++ indent 8)).
    unfold command_text. reassoc.
  - apply (contains_intro (nl ++ indent 12 ++ executable self ++ " -p " ++ pidfile self
                           ++ nl ++ indent 12 ++ "-E ")
             _ (indent 12 ++ "-E transport.tcp.port=" ++ str_of_int (tcp_port self)
                ++ nl ++ indent 12 ++ "-E path.logs=" ++ logs_path self
                ++ nl ++ indent 12 ++ "-E path.data=" ++ works_path self
                ++ nl ++ indent 12 ++ "-E cluster.name=" ++ cluster_name self
                ++ nl ++ indent 12 ++ "-E network.host='" ++ network_publish_host self ++ "'"
                ++ nl ++ indent 12 ++ "-E index.store.type=" ++ index_store_type self
                ++ nl ++ indent 8)).
    unfold command_text. reassoc.
  - apply (contains_intro (nl ++ indent 12 ++ executable self ++ " -p " ++ pidfile self
                           ++ nl ++ indent 12 ++ "-E http.port=" ++ str_of_int (port self)
                           ++ nl ++ indent 12 ++ "-E ")
             _ (indent 12 ++ "-E path.logs=" ++ logs_path self
                ++ nl ++ indent 12 ++ "-E path.data=" ++ works_path self
                ++ nl ++ indent 12 ++ "-E cluster.name=" ++ cluster_name self
                ++ nl ++ indent 12 ++ "-E network.host='" ++ network_publish_host self ++ "'"
                ++ nl ++ indent 12 ++ "-E index.store.type=" ++ index_store_type self
                ++ nl ++ indent 8)).
    unfold command_text. reassoc.
  - apply (contains_intro (nl ++ indent 12 ++ executable self ++ " -p " ++ pidfile self
                           ++ nl ++ indent 12 ++ "-E http.port=" ++ str_of_int (port self)
                           ++ nl ++ indent 12 ++ "-E transport.tcp.port="
                           ++ str_of_int (tcp_port self)
                           ++ nl ++ indent 12 ++ "-E ")
             _ (indent 12 ++ "-E path.data=" ++ works_path self
                ++ nl ++ indent 12 ++ "-E cluster.name=" ++ cluster_name self
                ++ nl ++ indent 12 ++ "-E network.host='" ++ network_publish_host self ++ "'"
                ++ nl ++ indent 12 ++ "-E index.store.type=" ++ index_store_type self
                ++ nl ++ indent 8)).
    unfold command_text. reassoc.
  - apply (contains_intro (nl ++ indent 12 ++ executable self ++ " -p " ++ pidfile self
                           ++ nl ++ indent 12 ++ "-E http.port=" ++ str_of_int (port self)
                           ++ nl ++ indent 12 ++ "-E transport.tcp.port="
                           ++ str_of_int (tcp_port self)
                           ++ nl ++ indent 12 ++ "-E path.logs=" ++ logs_path self
                           ++ nl ++ indent 12 ++ "-E ")
             _ (indent 12 ++ "-E cluster.name=" ++ cluster_name self
                ++ nl ++ indent 12 ++ "-E network.host='" ++ network_publish_host self ++ "'"
                ++ nl ++ indent 12 ++ "-E index.store.type=" ++ index_store_type self
                ++ nl ++ indent 8)).
    unfold command_text. reassoc.
  - apply (contains_intro (nl ++ indent 12 ++ executable self ++ " -p " ++ pidfile self
                           ++ nl ++ indent 12 ++ "-E http.port=" ++ str_of_int (port self)
                           ++ nl ++ indent 12 ++ "-E transport.tcp.port="
                           ++ str_of_int (tcp_port self)
                           ++ nl ++ indent 12 ++ "-E path.logs=" ++ logs_path self
                           ++ nl ++ indent 12 ++ "-E path.data=" ++ works_path self
                           ++ nl ++ indent 12 ++ "-E ")
             _ (indent 12 ++ "-E network.host='" ++ network_publish_host self ++ "'"
                ++ nl ++ indent 12 ++ "-E index.store.type=" ++ index_store_type self
                ++ nl ++ indent 8)).
    unfold command_text. reassoc.
  - apply (contains_intro (nl ++ indent 12 ++ executable self ++ " -p " ++ pidfile self
                           ++ nl ++ indent 12 ++ "-E http.port=" ++ str_of_int (port self)
                           ++ nl ++ indent 12 ++ "-E transport.tcp.port="
                           ++ str_of_int (tcp_port self)
                           ++ nl ++ indent 12 ++ "-E path.logs=" ++ logs_path self
                           ++ nl ++ indent 12 ++ "-E path.data=" ++ works_path self
                           ++ nl ++ indent 12 ++ "-E cluster.name=" ++ cluster_name self
                           ++ nl ++ indent 12 ++ "-E ")
             _ (indent 12 ++ "-E index.store.type=" ++ index_store_type self
                ++ nl ++ indent 8)).
    unfold command_text. reassoc.
  - apply (contains_intro (nl ++ indent 12 ++ executable self ++ " -p " ++ pidfile self
                           ++ nl ++ indent 12 ++ "-E http.port=" ++ str_of_int (port self)
                           ++ nl ++ indent 12 ++ "-E transport.tcp.port="
                           ++ str_of_int (tcp_port self)
                           ++ nl ++ indent 12 ++ "-E path.logs=" ++ logs_path self
                           ++ nl ++ indent 12 ++ "-E path.data=" ++ works_path self
                           ++ nl ++ indent 12 ++ "-E cluster.name=" ++ cluster_name self
                           ++ nl ++ indent 12 ++ "-E network.host='"
                           ++ network_publish_host self ++ "'"
                           ++ nl ++ indent 12 ++ "-E ")
             _ (indent 8)).
    unfold command_text. reassoc.
Qed.

(** * Known values of the library models *)

(** The test vectors of RFC 4648. *)
Example b64encode_rfc4648 :
  map Base64.b64encode [""; "f"; "fo"; "foo"; "foob"; "fooba"; "foobar"]
  = [""; "Zg=="; "Zm8="; "Zm9v"; "Zm9vYg=="; "Zm9vYmE="; "Zm9vYmFy"].
Proof. reflexivity. Qed.

Example repr_escapes :
  PyBytes.repr ("a'b" ++ nl ++ String (ascii_of_N 200) (String (ascii_of_N 92) ""))
  = String "b" (String dquote ("a'b\n\xc8\\" ++ String dquote "")).
Proof. reflexivity. Qed.

Example parse_version_7_10_2 :
  parse_version "7.10.2" = Ok v7
  /\ lt v7 {| release := [6; 0; 0]%N |} = false
  /\ lt {| release := [5; 6; 16]%N |} {| release := [6; 0; 0]%N |} = true
  /\ lt {| release := [6; 0; 0]%N |} {| release := [6; 0; 0]%N |} = false.
Proof. repeat split. Qed.

(** What [bytes.decode] accepts and refuses at the boundaries of well-formed
    UTF-8: the longest and shortest sequences of each length, overlong forms,
    surrogates, code points above U+10FFFF, and sequences cut short. *)
Example valid_utf8_boundaries :
  map (fun codes => valid_utf8 (bytes codes))
    [ []; [127]; [194; 128]; [223; 191]; [224; 160; 128]; [237; 159; 191];
      [238; 128; 128]; [239; 191; 191]; [240; 144; 128; 128];
      [244; 143; 191; 191] ]%N
  = [true; true; true; true; true; true; true; true; true; true]
  /\ map (fun codes => valid_utf8 (bytes codes))
       [ [128]; [191]; [255]; [192; 128]; [193; 191]; [194]; [194; 127];
         [223; 192]; [224; 128; 128]; [224; 159; 191]; [237; 160; 128];
         [225; 128]; [240; 143; 191; 191]; [244; 144; 128; 128];
         [245; 128; 128; 128]; [241; 128; 128]; [97; 194] ]%N
     = [false; false; false; false; false; false; false; false; false; false;
        false; false; false; false; false; false; false].
Proof. split; reflexivity. Qed.

(** Decimal digits beyond ASCII that [\d] matches (Arabic-Indic three,
    Devanagari zero, fullwidth nine, mathematical bold zero), and characters
    next to them that it does not (U+066A, U+0965, U+FF1A, U+1D7CD). *)
Example digit_beyond_ascii :
  map (fun codes => Re.digit (bytes codes ++ "."))
    [ [217; 163]; [224; 165; 166]; [239; 188; 153]; [240; 157; 159; 142] ]%N
  = map (fun codes => Some (bytes codes, "."))
      [ [217; 163]; [224; 165; 166]; [239; 188; 153]; [240; 157; 159; 142] ]%N
  /\ map (fun codes => Re.digit (bytes codes ++ "."))
       [ [217; 170]; [224; 165; 165]; [239; 188; 154]; [240; 157; 159; 141] ]%N
     = [None; None; None; None].
Proof. split; reflexivity. Qed.

(** Output that is not UTF-8, output whose patch number is followed by an
    Arabic-Indic digit, which the pattern takes and [parse_version] refuses,
    and output whose minor number has 4301 digits. *)
Example version_beyond_ascii :
  (version (printing (bytes [255%N] ++ banner "7.10.2")) (fresh 9300 "es")).1.1
  = Raise UnicodeDecodeError
  /\ (version (printing ("Version: 7.10.2" ++ bytes [217; 163]%N)) (fresh 9300 "es")).1.1
     = Raise (InvalidVersion ("7.10.2" ++ bytes [217; 163]%N))
  /\ (version (printing ("Version: 7." ++ times 4301 "1" ++ ".2"))
        (fresh 9300 "es")).1.1
     = Raise (ValueError (int_limit_msg (times 4301 "1"))).
Proof. repeat split; vm_compute; reflexivity. Qed.

(** The version line need not be the first line of the output. *)
Example version_after_other_lines :
  (version (printing ("warning: JAVA_HOME is deprecated" ++ nl ++ banner "7.10.2"))
     (fresh 9300 "es")).1.1
  = Ok (Some v7).
Proof. reflexivity. Qed.

(** * The claims *)

(** ** The Authorization header *)

Lemma length_repr_body quote b :
  (String.length b <= String.length (PyBytes.repr_body quote b))%nat.
Proof.
  induction b as [|c b IH]; simpl; [lia|].
  rewrite length_app_s.
  assert (1 <= String.length (PyBytes.repr_byte quote c))%nat; [|lia].
  unfold PyBytes.repr_byte.
  repeat match goal with |- context [if ?x then _ else _] => destruct x end;
    simpl; lia.
Qed.

(** The text form of a bytes object is longer than the bytes: it is never the
    bytes themselves. *)
Lemma repr_differs b : PyBytes.repr b <> b.
Proof.
  intros H. apply (f_equal String.length) in H. unfold PyBytes.repr in H.
  simpl in H. rewrite length_app_s in H.
  pose proof (length_repr_body
                (if mem squote b && negb (mem dquote b) then dquote else squote) b).
  simpl in H. lia.
Qed.

(** For every credential pair the header is [Basic ] followed by the text
    form of the token, a bytes object, and so differs from [Basic ] followed
    by the token. *)
Lemma make_headers_credentials login password :
  let token := Base64.b64encode (str login ++ ":" ++ str password) in
  exists h,
    make_headers (Some (credentials login password)) = Ok (Some h)
    /\ h !! "Authorization" = Some ("Basic " ++ PyBytes.repr token)
    /\ "Basic " ++ PyBytes.repr token <> "Basic " ++ token.
Proof.
  intros token. eexists. split; [|split].
  - unfold make_headers, getitem, credentials.
    rewrite lookup_insert_eq, lookup_insert_ne, lookup_insert_eq by discriminate.
    reflexivity.
  - apply lookup_singleton_eq.
  - intros H. injection H as H. exact (repr_differs _ H).
Qed.

(** C1, at the credentials of the claim: the constructor run with login
    [elastic] and password [secret] derives the header
    [Basic b'ZWxhc3RpYzpzZWNyZXQ='], which carries the text form of a bytes
    object (the letter b and quotes), whereas [Basic ] followed by the base64
    encoding of [elastic:secret] is [Basic ZWxhc3RpYzpzZWNyZXQ=]: the two
    differ. *)
Theorem authorization_header_elastic_secret :
  authorization
    (construct 9300 (Some (credentials (VStr "elastic") (VStr "secret")))
       (printing (banner "7.10.2")))
  = Some "Basic b'ZWxhc3RpYzpzZWNyZXQ='"
  /\ "Basic " ++ Base64.b64encode "elastic:secret" = "Basic ZWxhc3RpYzpzZWNyZXQ="
  /\ authorization
       (construct 9300 (Some (credentials (VStr "elastic") (VStr "secret")))
          (printing (banner "7.10.2")))
     <> Some ("Basic " ++ Base64.b64encode "elastic:secret").
Proof.
  assert (authorization
            (construct 9300 (Some (credentials (VStr "elastic") (VStr "secret")))
               (printing (banner "7.10.2")))
          = Some "Basic b'ZWxhc3RpYzpzZWNyZXQ='") as H by (vm_compute; reflexivity).
  split; [exact H|]. split; [vm_compute; reflexivity|].
  rewrite H. vm_compute. discriminate.
Qed.

(** ** Version detection *)

(** C2, as amended: when nothing is stored and the binary exits with status
    0 after printing well-formed UTF-8 whose decimal digits are all ASCII,
    the output of the binary decides the result.  If the output holds [Version: c.mi.pa] with [c] one digit and
    [mi], [pa] non-empty runs of at most 4300 digits, [pa] followed by no
    further digit, and the pattern matches at no earlier position, [version]
    returns the version [(c, mi, pa)] read as integers and stores it.  If the
    pattern matches nowhere in the output, [version] raises the
    not-recognized [RuntimeError] and returns nothing. *)
Theorem version_returns_leftmost_match w self out :
  _version self = None ->
  programs w (invocations w) [executable self; "-Vv"] = Exited 0 out ->
  valid_utf8 out = true ->
  digits_are_ascii out = true ->
  (forall pre c mi pa rest,
     out = pre ++ version_line c mi pa rest ->
     is_digit c = true ->
     mi <> "" -> all_digits mi = true -> (String.length mi <= 4300)%nat ->
     pa <> "" -> all_digits pa = true -> (String.length pa <= 4300)%nat ->
     head_is_digit rest = false ->
     (forall pre' s', out = pre' ++ s' -> matches s' ->
        (String.length pre <= String.length pre')%nat) ->
     let v := {| release := [int (String c ""); int mi; int pa] |} in
     version w self = (Ok (Some v), tick w, set_version self (Some v)))
  /\ (~ occurs out ->
      version w self = (Raise (RuntimeError (not_recognized out) None), tick w, self)).
Proof.
  intros Hnone Hrun Hutf Ha. rewrite (version_fresh_text _ _ _ Hnone Hrun Hutf Ha).
  split.
  - intros pre c mi pa rest -> Hc Hmi1 Hmi2 Hmi3 Hpa1 Hpa2 Hpa3 Hrest Hleft v.
    pose proof (digits_are_ascii_head _
                  (digits_are_ascii_version_line _ _ _ _
                     (digits_are_ascii_suffix _ _ Ha))) as Hr.
    rewrite (search_leftmost pre _ _ Ha
               (match_here_complete c mi pa rest Hc Hmi1 Hmi2 Hpa1 Hpa2 Hrest Hr)
               Hleft).
    cbn [Re.major Re.minor Re.patch]. now rewrite (find_fits _ _ Hmi3 Hpa3).
  - intros Hno. apply (search_None _ Ha) in Hno. now rewrite Hno.
Qed.

Lemma version_returns_leftmost_match_witness :
  _version (fresh 9300 "es") = None
  /\ programs (printing (banner "7.10.2")) 0%nat [es_bin; "-Vv"]
     = Exited 0 (banner "7.10.2")
  /\ valid_utf8 (banner "7.10.2") = true
  /\ digits_are_ascii (banner "7.10.2") = true
  /\ version (printing (banner "7.10.2")) (fresh 9300 "es")
     = (Ok (Some v7), tick (printing (banner "7.10.2")),
        set_version (fresh 9300 "es") (Some v7)).
Proof.
  split; [reflexivity|]. split; [reflexivity|]. split; [reflexivity|].
  split; [reflexivity|].
  apply (proj1 (version_returns_leftmost_match
                  (printing (banner "7.10.2")) (fresh 9300 "es") (banner "7.10.2")
                  eq_refl eq_refl eq_refl eq_refl)
           "" "7"%char "10" "2"
           (", Build: default/tar/747e1cc/2021-01-13, JVM: 15.0.1" ++ nl));
    try reflexivity; try discriminate; simpl; lia.
Defined.

(** C2, as stated, fails for a major number of two digits: the output
    [Version: 10.2.3, ...] holds a line [Version: M.N.P] with [M = 10],
    [N = 2], [P = 3], all runs of digits, and [version] raises instead of
    returning [(10, 2, 3)]. *)
Lemma version_two_digit_major :
  banner "10.2.3"
  = "Version: " ++ "10" ++ "." ++ "2" ++ "." ++ "3"
    ++ ", Build: default/tar/747e1cc/2021-01-13, JVM: 15.0.1" ++ nl
  /\ all_digits "10" = true /\ all_digits "2" = true /\ all_digits "3" = true
  /\ version (printing (banner "10.2.3")) (fresh 9300 "es")
     = (Raise (RuntimeError (not_recognized (banner "10.2.3")) None),
        tick (printing (banner "10.2.3")), fresh 9300 "es")
  /\ (version (printing (banner "10.2.3")) (fresh 9300 "es")).1.1
     <> Ok (Some {| release := [int "10"; int "2"; int "3"] |}).
Proof.
  repeat split; try reflexivity.
  vm_compute. discriminate.
Qed.

(** ** Command building *)

(** C3, as amended: for every configuration whose executable, pidfile, log
    path, data path, cluster name, network host and index store type are
    plain (no space, no equals sign, no leading hyphen) and every detected
    version at or above 6.0.0, the command holds exactly one occurrence of
    each of the eight settings, each followed by the value of its
    configuration field, the network host between single quotes. *)
Theorem exec_command_one_of_each w self v w1 self1 a b c :
  version w self = (Ok (Some v), w1, self1) ->
  release v = [a; b; c] ->
  ~ triple_lt (a, b, c) (6, 0, 0)%N ->
  plain_config self = true ->
  exists command,
    _exec_command w self = (Ok command, w1, self1) /\ one_of_each self command.
Proof.
  intros Hv Hr Hge Hplain. exists (command_text self). split.
  - exact (exec_command_supported _ _ _ _ _ _ _ _ Hv Hr Hge).
  - unfold one_of_each.
    pose proof (command_text_settings self) as Hin.
    pose proof (occurrences_pidfile self Hplain) as Hp.
    assert (forall key,
              In key ["http.port="; "transport.tcp.port="; "path.logs="; "path.data=";
                      "cluster.name="; "network.host="; "index.store.type="] ->
              occurrences key (command_text self) = 1%nat) as Hs
      by (intros key Hkey; exact (occurrences_setting key self Hkey Hplain)).
    unfold settings in *.
    repeat (apply Forall_cons in Hin as [? Hin]).
    repeat apply Forall_cons_2; [..|apply Forall_nil_2];
      (split; [|assumption]); cbn [fst];
      first [exact Hp | apply Hs; cbn [In]; tauto].
Qed.

Lemma exec_command_one_of_each_witness :
  version (printing (banner "7.10.2")) (fresh 9300 "es")
  = (Ok (Some v7), tick (printing (banner "7.10.2")),
     set_version (fresh 9300 "es") (Some v7))
  /\ ~ triple_lt (7, 10, 2)%N (6, 0, 0)%N
  /\ plain_config (fresh 9300 "es") = true
  /\ exists command,
       _exec_command (printing (banner "7.10.2")) (fresh 9300 "es")
       = (Ok command, tick (printing (banner "7.10.2")),
          set_version (fresh 9300 "es") (Some v7))
       /\ one_of_each (fresh 9300 "es") command.
Proof.
  assert (~ triple_lt (7, 10, 2)%N (6, 0, 0)%N) as Hge by (simpl; lia).
  split; [reflexivity|]. split; [exact Hge|]. split; [reflexivity|].
  apply (exec_command_one_of_each (printing (banner "7.10.2")) (fresh 9300 "es") v7
           _ _ 7%N 10%N 2%N); [reflexivity | reflexivity | exact Hge | reflexivity].
Defined.

(** C3, as stated, fails for a configuration whose cluster name holds the
    text of a setting: with version 7.10.2 the command is built, and
    [http.port=] occurs in it twice. *)
Lemma exec_command_injected_setting :
  let self := fresh 9300 "es -E http.port=1" in
  exists command w1 self1,
    _exec_command (printing (banner "7.10.2")) self = (Ok command, w1, self1)
    /\ occurrences "http.port=" command = 2%nat
    /\ ~ one_of_each self command.
Proof.
  intros self.
  exists (command_text self), (tick (printing (banner "7.10.2"))),
    (set_version self (Some v7)).
  split; [reflexivity|].
  assert (occurrences "http.port=" (command_text self) = 2%nat) as H2
    by (vm_compute; reflexivity).
  split; [exact H2|].
  unfold one_of_each, settings. intros H.
  apply Forall_cons in H as [_ H]. apply Forall_cons in H as [[H _] _].
  cbn [fst] in H. rewrite H2 in H. discriminate.
Qed.

(** C4: whatever the configuration, when the detected version [(a, b, c)] is
    below [(6, 0, 0)] command building raises the not-supported
    [RuntimeError] and returns no command; when it is not below, command
    building returns a command. *)
Theorem exec_command_version_floor w self v w1 self1 a b c :
  version w self = (Ok (Some v), w1, self1) ->
  release v = [a; b; c] ->
  (triple_lt (a, b, c) (6, 0, 0)%N ->
     _exec_command w self = (Raise (RuntimeError not_supported None), w1, self1))
  /\ (~ triple_lt (a, b, c) (6, 0, 0)%N ->
      exists command, _exec_command w self = (Ok command, w1, self1)).
Proof.
  intros Hv Hr. split; intros H.
  - rewrite exec_command_eq, Hv.
    destruct v as [r]. simpl in Hr. subst r.
    apply lt_triple in H. now rewrite H.
  - eexists. exact (exec_command_supported _ _ _ _ _ _ _ _ Hv Hr H).
Qed.

Lemma exec_command_version_floor_witness :
  version (printing (banner "5.6.16")) (fresh 9300 "es")
  = (Ok (Some {| release := [5; 6; 16]%N |}), tick (printing (banner "5.6.16")),
     set_version (fresh 9300 "es") (Some {| release := [5; 6; 16]%N |}))
  /\ triple_lt (5, 6, 16)%N (6, 0, 0)%N
  /\ _exec_command (printing (banner "5.6.16")) (fresh 9300 "es")
     = (Raise (RuntimeError not_supported None), tick (printing (banner "5.6.16")),
        set_version (fresh 9300 "es") (Some {| release := [5; 6; 16]%N |})).
Proof.
  assert (triple_lt (5, 6, 16)%N (6, 0, 0)%N) as Hlt by (simpl; lia).
  split; [reflexivity|]. split; [exact Hlt|].
  apply (proj1 (exec_command_version_floor (printing (banner "5.6.16"))
                  (fresh 9300 "es") {| release := [5; 6; 16]%N |} _ _
                  5%N 6%N 16%N eq_refl eq_refl) Hlt).
Defined.

(** With a binary below 6.0.0 the constructor raises and returns no executor:
    the supervisor is handed nothing to start. *)
Lemma construct_old_version :
  construct 9300 None (printing (banner "5.6.16"))
  = (Raise (RuntimeError not_supported None), tick (printing (banner "5.6.16"))).
Proof. reflexivity. Qed.

(** ** Memoization *)

(** C5: once a call of [version] has succeeded with [v], every later call on
    the object it left, in any world at all, returns [v] and leaves the world
    and the object as they are: no program is invoked, whatever the binary
    would print now. *)
Theorem version_idempotent w self v w1 self1 :
  version w self = (Ok (Some v), w1, self1) ->
  forall w2 : World, version w2 self1 = (Ok (Some v), w2, self1).
Proof.
  intros H w2. apply version_cached.
  destruct (version_Ok _ _ _ _ _ H) as (v' & [= <-] & Hv). exact Hv.
Qed.

Lemma version_idempotent_witness :
  version (printing (banner "7.10.2")) (fresh 9300 "es")
  = (Ok (Some v7), tick (printing (banner "7.10.2")),
     set_version (fresh 9300 "es") (Some v7))
  /\ version (printing (banner "8.1.0")) (set_version (fresh 9300 "es") (Some v7))
     = (Ok (Some v7), printing (banner "8.1.0"),
        set_version (fresh 9300 "es") (Some v7)).
Proof.
  split; [reflexivity|].
  apply (version_idempotent (printing (banner "7.10.2")) (fresh 9300 "es") v7
           (tick (printing (banner "7.10.2"))) _ eq_refl).
Defined.

(** ** Failures of version detection *)

(** C6: when nothing is stored and the binary at the configured path cannot
    be started, [version] raises a [RuntimeError] caused by the [OSError],
    and its message holds the configured path. *)
Theorem version_executable_not_found w self errno :
  _version self = None ->
  programs w (invocations w) [executable self; "-Vv"] = NotRunnable errno ->
  exists msg,
    version w self = (Raise (RuntimeError msg (Some (OSError errno))), tick w, self)
    /\ contains (executable self) msg.
Proof.
  intros Hnone Hrun. exists (does_not_point (executable self)). split.
  - now rewrite (version_fresh _ _ Hnone), Hrun.
  - now apply (contains_intro "'" _ "' does not point to elasticsearch.").
Qed.

Lemma version_executable_not_found_witness :
  _version (fresh 9300 "es") = None
  /\ programs missing 0%nat [es_bin; "-Vv"] = NotRunnable 2
  /\ exists msg,
       version missing (fresh 9300 "es")
       = (Raise (RuntimeError msg (Some (OSError 2))), tick missing, fresh 9300 "es")
       /\ contains es_bin msg.
Proof.
  split; [reflexivity|]. split; [reflexivity|].
  apply (version_executable_not_found missing (fresh 9300 "es") 2 eq_refl eq_refl).
Defined.

(** C7, as amended: when nothing is stored and the binary exits with status
    0 after printing well-formed UTF-8 whose decimal digits are all ASCII and
    in which the version pattern matches nowhere, [version] raises the
    not-recognized [RuntimeError], and its message holds the whole output. *)
Theorem version_output_not_recognized w self out :
  _version self = None ->
  programs w (invocations w) [executable self; "-Vv"] = Exited 0 out ->
  valid_utf8 out = true ->
  digits_are_ascii out = true ->
  ~ occurs out ->
  exists msg,
    version w self = (Raise (RuntimeError msg None), tick w, self)
    /\ msg = not_recognized out
    /\ contains out msg.
Proof.
  intros Hnone Hrun Hutf Ha Hno. exists (not_recognized out). split; [|split].
  - apply (search_None _ Ha) in Hno.
    rewrite (version_fresh_text _ _ _ Hnone Hrun Hutf Ha). now rewrite Hno.
  - reflexivity.
  - apply (contains_intro
             ("Elasticsearch version is not recognized. It is probably not supported. "
              ++ nl ++ "Output is: ") _ "").
    unfold not_recognized. rewrite app_nil_r_s, !app_assoc_s. reflexivity.
Qed.

Lemma version_output_not_recognized_witness :
  _version (fresh 9300 "es") = None
  /\ programs (printing "command not found") 0%nat [es_bin; "-Vv"]
     = Exited 0 "command not found"
  /\ valid_utf8 "command not found" = true
  /\ digits_are_ascii "command not found" = true
  /\ ~ occurs "command not found"
  /\ exists msg,
       version (printing "command not found") (fresh 9300 "es")
       = (Raise (RuntimeError msg None), tick (printing "command not found"),
          fresh 9300 "es")
       /\ msg = not_recognized "command not found"
       /\ contains "command not found" msg.
Proof.
  assert (~ occurs "command not found") as Hno
    by (apply search_None; reflexivity).
  split; [reflexivity|]. split; [reflexivity|]. split; [reflexivity|].
  split; [reflexivity|]. split; [exact Hno|].
  apply (version_output_not_recognized (printing "command not found")
           (fresh 9300 "es") "command not found" eq_refl eq_refl eq_refl eq_refl Hno).
Defined.

(** C7, as stated, fails in three ways.  The binary prints
    [command not found], in which the pattern matches nowhere, and exits with
    status 127: [version] raises [CalledProcessError], with no message that
    holds the output.  The binary prints the one byte FF, which is no text,
    and exits with status 0: [version] raises [UnicodeDecodeError].  The
    binary prints [Version: ] followed by Arabic-Indic digits, seven dot one
    zero dot two, in which no [Version: M.N.P] with numbers written in
    [0-9] is found, and exits with status 0: [version] raises
    [InvalidVersion]. *)
Lemma version_unmatched_output_other_error :
  (~ occurs "command not found"
   /\ version (exiting 127 "command not found") (fresh 9300 "es")
      = (Raise (CalledProcessError 127), tick (exiting 127 "command not found"),
         fresh 9300 "es"))
  /\ (~ occurs (bytes [255]%N)
      /\ version (printing (bytes [255]%N)) (fresh 9300 "es")
         = (Raise UnicodeDecodeError, tick (printing (bytes [255]%N)),
            fresh 9300 "es"))
  /\ (let seven := bytes [217; 167]%N in
      let one := bytes [217; 161]%N in
      let zero := bytes [217; 160]%N in
      let two := bytes [217; 162]%N in
      let out := "Version: " ++ seven ++ "." ++ one ++ zero ++ "." ++ two in
      valid_utf8 out = true
      /\ ~ occurs out
      /\ version (printing out) (fresh 9300 "es")
         = (Raise (InvalidVersion (seven ++ "." ++ one ++ zero ++ "." ++ two)),
            tick (printing out), fresh 9300 "es")).
Proof.
  split; [|split].
  - split; [|reflexivity]. apply search_None; reflexivity.
  - split; [|reflexivity]. intros H. apply occurs_has_V in H. discriminate H.
  - cbv zeta. split; [reflexivity|]. split; [|reflexivity].
    intros (pre & s & He & c & mi & pa & rest & Hc & _ & _ & _ & _ & ->).
    unfold version_line in He. vm_compute in He.
    destruct pre as [|x0 pre]; cbn [String.append] in He.
    { injection He as <-. discriminate Hc. }
    injection He as _ He.
    do 18 (destruct pre as [|? pre]; cbn [String.append] in He;
           [discriminate He|injection He as _ He]).
    destruct pre; discriminate He.
Qed.

(** C9: a call of [version] that raises leaves the object as it was, with
    nothing stored, after one invocation of the binary; the next call invokes
    the binary again, and returns a version if the binary then exits with
    status 0 after printing a version line within well-formed UTF-8 of at
    most 4300 bytes whose decimal digits are all ASCII. *)
Theorem version_failure_not_cached w self e w1 self1 :
  version w self = (Raise e, w1, self1) ->
  self1 = self
  /\ _version self1 = None
  /\ invocations w1 = S (invocations w)
  /\ (forall r w2 self2,
        version w1 self1 = (r, w2, self2) -> invocations w2 = S (invocations w1))
  /\ (forall out,
        programs w1 (invocations w1) [executable self1; "-Vv"] = Exited 0 out ->
        valid_utf8 out = true ->
        digits_are_ascii out = true ->
        (String.length out <= 4300)%nat ->
        occurs out ->
        exists v,
          version w1 self1 = (Ok (Some v), tick w1, set_version self1 (Some v))).
Proof.
  intros (Hnone & -> & ->)%version_Raise.
  split; [reflexivity|]. split; [exact Hnone|]. split; [reflexivity|]. split.
  - intros r w2 self2. rewrite (version_fresh _ _ Hnone).
    version_cases; now intros [= _ <- _].
  - intros out Hrun Hutf Ha Hlen Hocc.
    rewrite (version_fresh_text _ _ _ Hnone Hrun Hutf Ha).
    destruct (Re.search out) as [m|] eqn:E.
    + destruct (search_lengths _ _ E) as [H1 H2].
      rewrite find_fits by lia. now eexists.
    + now apply (search_None _ Ha) in E.
Qed.

Lemma version_failure_not_cached_witness :
  version installed_later (fresh 9300 "es")
  = (Raise (RuntimeError (does_not_point es_bin) (Some (OSError 2))),
     tick installed_later, fresh 9300 "es")
  /\ _version (fresh 9300 "es") = None
  /\ exists v,
       version (tick installed_later) (fresh 9300 "es")
       = (Ok (Some v), tick (tick installed_later),
          set_version (fresh 9300 "es") (Some v)).
Proof.
  split; [reflexivity|].
  destruct (version_failure_not_cached installed_later (fresh 9300 "es") _ _ _ eq_refl)
    as (_ & Hnone & _ & _ & Hnext).
  split; [exact Hnone|].
  apply (Hnext (banner "7.10.2") eq_refl eq_refl eq_refl); [simpl; lia|].
  exists "", (banner "7.10.2"). split; [reflexivity|].
  exists "7"%char, "10", "2",
    (", Build: default/tar/747e1cc/2021-01-13, JVM: 15.0.1" ++ nl).
  repeat split; try reflexivity; discriminate.
Defined.

(** ** The ports of a constructed executor *)

Lemma exec_command_attributes w self r w1 self1 :
  _exec_command w self = (r, w1, self1) ->
  self1 = self \/ exists v, self1 = set_version self (Some v).
Proof.
  rewrite exec_command_eq.
  destruct (version w self) as [[[[v|]|e] w'] self'] eqn:E.
  - destruct (lt v _); intros [= _ _ <-]; exact (version_attributes _ _ _ _ _ E).
  - intros [= _ _ <-]. exact (version_attributes _ _ _ _ _ E).
  - intros [= _ _ <-]. exact (version_attributes _ _ _ _ _ E).
Qed.

(** C8, as amended: construction does not enforce that the ports are
    distinct or positive.  The transport port of a constructed executor is
    the one supplied, which nothing checks.  Its HTTP port is the one that
    the constructor of the base class, given the URL [http://host:port],
    accepted and assigned; whenever that is the port supplied, the ports of
    the executor are distinct positive integers exactly when the ports
    supplied are. *)
Theorem init_keeps_ports (super_init : HTTPExecutor.init)
    (executable host : string) (port tcp_port : Z)
    (pidfile logs_path works_path cluster_name network_publish_host
       index_store_type : string)
    (timeout : Z) (http_auth : option (gmap string value)) (w w' : World) (e : t) :
  __init__ super_init executable host port tcp_port pidfile logs_path works_path
    cluster_name network_publish_host index_store_type timeout http_auth w
  = (Ok e, w') ->
  ElasticSearchExecutor.tcp_port e = tcp_port
  /\ exists command headers b,
       super_init command ("http://" ++ host ++ ":" ++ str_of_int port) timeout headers
       = Ok b
       /\ base e = Some b
       /\ ElasticSearchExecutor.port e = HTTPExecutor.port b
       /\ (HTTPExecutor.port b = port ->
           (ports_distinct_positive (ElasticSearchExecutor.port e)
              (ElasticSearchExecutor.tcp_port e)
            <-> ports_distinct_positive port tcp_port)).
Proof.
  unfold __init__.
  destruct (make_headers http_auth) as [headers|]; [|discriminate].
  destruct (_exec_command w _) as [[[command|err] w1] self1] eqn:E; [|discriminate].
  destruct (super_init command _ timeout headers) as [b|err] eqn:Eb; [|discriminate].
  intros [= <- _].
  assert (ElasticSearchExecutor.tcp_port self1 = tcp_port) as Ht
    by (destruct (exec_command_attributes _ _ _ _ _ E) as [->|[v ->]]; reflexivity).
  cbn [set_base ElasticSearchExecutor.port ElasticSearchExecutor.tcp_port base].
  split; [exact Ht|]. exists command, headers, b.
  split; [exact Eb|]. split; [reflexivity|]. split; [reflexivity|].
  intros ->. now rewrite Ht.
Qed.

Lemma init_keeps_ports_witness :
  exists e w',
    construct 9300 None (printing (banner "7.10.2")) = (Ok e, w')
    /\ ElasticSearchExecutor.port e = 9200
    /\ ElasticSearchExecutor.tcp_port e = 9300
    /\ ports_distinct_positive (ElasticSearchExecutor.port e)
         (ElasticSearchExecutor.tcp_port e).
Proof.
  destruct (construct 9300 None (printing (banner "7.10.2"))) as [[e|err] w'] eqn:E;
    [|discriminate E].
  exists e, w'. split; [reflexivity|].
  destruct (init_keeps_ports _ _ _ _ _ _ _ _ _ _ _ _ _ _ _ _ E)
    as (Ht & command & headers & b & Hb & _ & Hp & Hinv).
  injection Hb as <-. cbn [HTTPExecutor.port] in Hp, Hinv.
  split; [exact Hp|]. split; [exact Ht|].
  apply (Hinv eq_refl). unfold ports_distinct_positive. lia.
Defined.

(** C8, as stated, fails: the constructor accepts an HTTP port and a
    transport port that are the same, and the executor it returns has both;
    and it accepts a transport port that is negative, and the executor it
    returns has it. *)
Lemma construct_equal_ports :
  (exists e w',
     construct 9200 None (printing (banner "7.10.2")) = (Ok e, w')
     /\ ElasticSearchExecutor.port e = 9200
     /\ ElasticSearchExecutor.tcp_port e = 9200
     /\ ~ ports_distinct_positive (ElasticSearchExecutor.port e)
            (ElasticSearchExecutor.tcp_port e))
  /\ (exists e w',
        construct (-1) None (printing (banner "7.10.2")) = (Ok e, w')
        /\ ElasticSearchExecutor.port e = 9200
        /\ ElasticSearchExecutor.tcp_port e = -1
        /\ ~ ports_distinct_positive (ElasticSearchExecutor.port e)
               (ElasticSearchExecutor.tcp_port e)).
Proof.
  split; eexists _, _;
    (split; [reflexivity|]); (split; [reflexivity|]); (split; [reflexivity|]);
    unfold ports_distinct_positive; simpl; lia.
Qed.

(** ** The no-op executor *)

(** C10: constructed with no credential pair, the no-op executor has a host
    and a port and neither a login nor a password, reading either raises
    [AttributeError]; constructed with a pair, its login and password are
    those of the pair; [running] is true, however it was constructed. *)
Theorem noop_credentials host port login password :
  (exists o,
     NoopElasticsearch.__init__ host port None = Ok o
     /\ NoopElasticsearch.getattr o "host" = Ok host
     /\ NoopElasticsearch.getattr o "port" = Ok port
     /\ NoopElasticsearch.getattr o "login" = Raise (AttributeError "login")
     /\ NoopElasticsearch.getattr o "password" = Raise (AttributeError "password"))
  /\ (exists o,
        NoopElasticsearch.__init__ host port (Some (credentials login password)) = Ok o
        /\ NoopElasticsearch.getattr o "host" = Ok host
        /\ NoopElasticsearch.getattr o "port" = Ok port
        /\ NoopElasticsearch.getattr o "login" = Ok login
        /\ NoopElasticsearch.getattr o "password" = Ok password)
  /\ NoopElasticsearch.running = true.
Proof.
  split; [|split]; [| |reflexivity].
  - eexists. split; [reflexivity|].
    unfold NoopElasticsearch.getattr.
    repeat split;
      repeat (rewrite lookup_insert_eq || rewrite lookup_insert_ne by discriminate);
      try rewrite lookup_empty; reflexivity.
  - unfold NoopElasticsearch.__init__, getitem, credentials.
    rewrite lookup_insert_eq, lookup_insert_ne, lookup_insert_eq by discriminate.
    eexists. split; [reflexivity|].
    unfold NoopElasticsearch.getattr.
    repeat split;
      repeat (rewrite lookup_insert_eq || rewrite lookup_insert_ne by discriminate);
      reflexivity.
Qed.

(** * Further properties of the code *)

Import Shape Charset.

(** ** The text of an integer, read back *)

Lemma int_acc_uint_pos d q :
  int_acc (N.pos q) (NilEmpty.string_of_uint d) = N.pos (Pos.of_uint_acc d q).
Proof.
  revert q.
  induction d; intros q; cbn [NilEmpty.string_of_uint int_acc Pos.of_uint_acc];
    [reflexivity|..];
    match goal with
    | |- int_acc ?x _ = N.pos (Pos.of_uint_acc _ ?y) =>
        replace x with (N.pos y) by (cbn; lia)
    end; apply IHd.
Qed.

Lemma int_uint d : int (NilEmpty.string_of_uint d) = Pos.of_uint d.
Proof.
  unfold int. induction d; cbn [NilEmpty.string_of_uint int_acc Pos.of_uint];
    [reflexivity | exact IHd | ..];
    match goal with
    | |- int_acc ?x _ = N.pos (Pos.of_uint_acc _ ?y) =>
        replace x with (N.pos y) by (cbn; lia)
    end; apply int_acc_uint_pos.
Qed.

Lemma str_of_pos_uint p :
  str_of_int (Z.pos p) = NilEmpty.string_of_uint (Pos.to_uint p).
Proof.
  unfold str_of_int. cbn [Z.to_int NilZero.string_of_int].
  pose proof (DecimalPos.Unsigned.to_uint_nonnil p) as H.
  destruct (Pos.to_uint p); [congruence|reflexivity..].
Qed.

(** [int(str(n))] is [n], for a natural number [n]. *)
Lemma int_str_of_int n : int (str_of_int (Z.of_N n)) = n.
Proof.
  destruct n as [|p]; [reflexivity|].
  cbn [Z.of_N]. rewrite str_of_pos_uint, int_uint.
  apply DecimalPos.Unsigned.of_to.
Qed.

Lemma all_digits_uint d : all_digits (NilEmpty.string_of_uint d) = true.
Proof. induction d; cbn [NilEmpty.string_of_uint all_digits]; auto. Qed.

Lemma str_of_N_digits n :
  str_of_int (Z.of_N n) <> "" /\ all_digits (str_of_int (Z.of_N n)) = true.
Proof.
  destruct n as [|p]; [split; [discriminate|reflexivity]|].
  cbn [Z.of_N]. rewrite str_of_pos_uint. split; [|apply all_digits_uint].
  pose proof (DecimalPos.Unsigned.to_uint_nonnil p) as H.
  destruct (Pos.to_uint p); [congruence|discriminate..].
Qed.

Lemma str_of_small n :
  (n <= 9)%N -> exists c, str_of_int (Z.of_N n) = String c "" /\ is_digit c = true.
Proof.
  intros H. destruct n as [|p]; [eexists; split; reflexivity|].
  repeat (destruct p as [p|p|]; try lia); eexists; split; reflexivity.
Qed.

(** ** Where the pattern can start *)

Lemma leftmost_without c pre s pre' s' :
  mem c pre = false -> pre ++ s = pre' ++ s' -> head_is c s' = true ->
  (String.length pre <= String.length pre')%nat.
Proof.
  revert pre'. induction pre as [|x pre IH]; intros pre' Hc He Hs; simpl; [lia|].
  simpl in Hc. apply orb_false_iff in Hc as [Hx Hc].
  destruct pre' as [|y pre']; simpl in He.
  - subst s'. simpl in Hs. congruence.
  - injection He as _ He. specialize (IH _ Hc He Hs). simpl. lia.
Qed.

(** ** Version detection, further *)

(** X1: the version a binary prints in decimal is the version detected.
    When nothing is stored and the binary exits with status 0 after printing
    [Version: a.b.c], with [a] at most 9 and [b], [c] natural numbers written
    in decimal with at most 4300 digits, after an ASCII text without capital
    V and before an ASCII text that does not start with a digit, [version]
    returns [(a, b, c)] and stores it. *)
Theorem version_reads_decimal w self pre a b c rest :
  _version self = None ->
  programs w (invocations w) [executable self; "-Vv"]
  = Exited 0 (pre ++ "Version: " ++ str_of_int (Z.of_N a) ++ "."
              ++ str_of_int (Z.of_N b) ++ "." ++ str_of_int (Z.of_N c) ++ rest) ->
  (a <= 9)%N ->
  (String.length (str_of_int (Z.of_N b)) <= 4300)%nat ->
  (String.length (str_of_int (Z.of_N c)) <= 4300)%nat ->
  is_ascii pre = true ->
  mem "V" pre = false ->
  is_ascii rest = true ->
  head_is_digit rest = false ->
  version w self
  = (Ok (Some {| release := [a; b; c] |}), tick w,
     set_version self (Some {| release := [a; b; c] |})).
Proof.
  intros Hnone Hrun Ha Hlb Hlc Hpa Hpre Hra Hrest.
  destruct (str_of_small a Ha) as (ca & Hca & Hda).
  destruct (str_of_N_digits b) as [Hb1 Hb2], (str_of_N_digits c) as [Hc1 Hc2].
  assert ("Version: " ++ str_of_int (Z.of_N a) ++ "." ++ str_of_int (Z.of_N b) ++ "."
          ++ str_of_int (Z.of_N c) ++ rest
          = version_line ca (str_of_int (Z.of_N b)) (str_of_int (Z.of_N c)) rest) as He
    by (rewrite Hca; reflexivity).
  rewrite He in Hrun.
  pose proof (match_here_complete ca _ _ rest Hda Hb1 Hb2 Hc1 Hc2 Hrest
                (digits_are_ascii_head _ (is_ascii_digits _ Hra))) as Hm.
  assert (is_ascii (pre ++ version_line ca (str_of_int (Z.of_N b))
                             (str_of_int (Z.of_N c)) rest) = true) as Hall.
  { rewrite is_ascii_app, Hpa. unfold version_line.
    rewrite is_ascii_app. cbn [is_ascii andb].
    rewrite (digit_low _ Hda).
    change ("." ++ str_of_int (Z.of_N b) ++ "." ++ str_of_int (Z.of_N c) ++ rest)
      with (String "." (str_of_int (Z.of_N b)
                        ++ String "." (str_of_int (Z.of_N c) ++ rest))).
    cbn [is_ascii]. rewrite is_ascii_app, (all_digits_ascii _ Hb2).
    cbn [is_ascii]. now rewrite is_ascii_app, (all_digits_ascii _ Hc2), Hra. }
  rewrite (version_fresh_text _ _ _ Hnone Hrun (is_ascii_valid _ Hall)
             (is_ascii_digits _ Hall)).
  rewrite (search_leftmost pre _ _ (is_ascii_digits _ Hall) Hm).
  - cbn [Re.major Re.minor Re.patch]. rewrite (find_fits _ _ Hlb Hlc).
    rewrite <- Hca, !int_str_of_int. reflexivity.
  - intros pre' s' He' Hm'.
    exact (leftmost_without "V" _ _ _ _ Hpre He' (matches_head _ Hm')).
Qed.

Lemma version_reads_decimal_witness :
  _version (fresh 9300 "es") = None
  /\ (7 <= 9)%N
  /\ is_ascii "elasticsearch " = true
  /\ mem "V" "elasticsearch " = false
  /\ version (printing ("elasticsearch " ++ banner "7.10.2")) (fresh 9300 "es")
     = (Ok (Some v7), tick (printing ("elasticsearch " ++ banner "7.10.2")),
        set_version (fresh 9300 "es") (Some v7)).
Proof.
  split; [reflexivity|]. split; [lia|]. split; [reflexivity|]. split; [reflexivity|].
  apply (version_reads_decimal (printing ("elasticsearch " ++ banner "7.10.2"))
           (fresh 9300 "es") "elasticsearch " 7%N 10%N 2%N
           (", Build: default/tar/747e1cc/2021-01-13, JVM: 15.0.1" ++ nl));
    try reflexivity; simpl; lia.
Defined.

(** X2: a binary that exits with a status other than zero makes [version]
    raise [CalledProcessError] with that status, whatever it printed (a
    version line included); the error is not turned into a [RuntimeError],
    nothing is stored and the object is left as it was. *)
Theorem version_nonzero_exit w self rc out :
  _version self = None ->
  programs w (invocations w) [executable self; "-Vv"] = Exited rc out ->
  rc <> 0 ->
  version w self = (Raise (CalledProcessError rc), tick w, self).
Proof.
  intros Hnone Hrun Hrc. rewrite (version_fresh _ _ Hnone), Hrun.
  destruct (Z.eqb_spec rc 0); [contradiction|reflexivity].
Qed.

Lemma version_nonzero_exit_witness :
  _version (fresh 9300 "es") = None
  /\ 1 <> 0
  /\ version (exiting 1 (banner "7.10.2")) (fresh 9300 "es")
     = (Raise (CalledProcessError 1), tick (exiting 1 (banner "7.10.2")),
        fresh 9300 "es").
Proof.
  split; [reflexivity|]. split; [discriminate|].
  apply (version_nonzero_exit (exiting 1 (banner "7.10.2")) (fresh 9300 "es") 1
           (banner "7.10.2")); [reflexivity | reflexivity | discriminate].
Defined.

(** X3: what [version] raises, for an executable path that holds no NUL
    byte.  The binary cannot be started: the [RuntimeError] naming the path,
    caused by the [OSError].  It exits with a status other than 0:
    [CalledProcessError].  It exits with status 0 and its output is not
    well-formed UTF-8: [UnicodeDecodeError].  The output is text and the
    pattern matches nowhere in it: the not-recognized [RuntimeError].  The
    pattern matches and has captured a decimal digit beyond ASCII:
    [InvalidVersion] from [parse_version].  The pattern matches and has captured a minor or
    patch number of more than 4300 digits: [ValueError] from [int].  It
    raises nothing else. *)
Theorem version_raises_only w self e w1 self1 :
  mem (ascii_of_N 0) (executable self) = false ->
  version w self = (Raise e, w1, self1) ->
  (exists errno,
     programs w (invocations w) [executable self; "-Vv"] = NotRunnable errno
     /\ e = RuntimeError (does_not_point (executable self)) (Some (OSError errno)))
  \/ (exists rc out,
        programs w (invocations w) [executable self; "-Vv"] = Exited rc out
        /\ rc <> 0
        /\ e = CalledProcessError rc)
  \/ (exists out,
        programs w (invocations w) [executable self; "-Vv"] = Exited 0 out
        /\ ((valid_utf8 out = false /\ e = UnicodeDecodeError)
            \/ (valid_utf8 out = true /\ ~ occurs out
                /\ e = RuntimeError (not_recognized out) None)
            \/ (exists m,
                  Re.search out = Some m /\ digits_are_ascii out = false
                  /\ e = InvalidVersion (join "." [Re.major m; Re.minor m; Re.patch m]))
            \/ (exists m p,
                  Re.search out = Some m
                  /\ (p = Re.major m \/ p = Re.minor m \/ p = Re.patch m)
                  /\ (4300 < String.length p)%nat
                  /\ e = ValueError (int_limit_msg p)))).
Proof.
  intros _ H. destruct (version_Raise _ _ _ _ _ H) as (Hnone & _ & _).
  rewrite (version_fresh _ _ Hnone) in H.
  destruct (programs _ _ _) as [rc out|errno].
  - destruct (Z.eqb_spec rc 0) as [->|Hrc].
    + right; right. exists out. split; [reflexivity|].
      destruct (valid_utf8 out) eqn:Hutf.
      * destruct (Re.search out) as [m|] eqn:E.
        -- destruct (parse_version _) as [v|e'] eqn:Ep; [discriminate|].
           injection H as <- _ _.
           destruct (search_Some _ _ E) as (pre & s' & _ & Hs).
           destruct (match_here_split _ _ Hs) as (H1 & H2 & H3 & _).
           rewrite (parse_version_join _ _ _ H1 H2 H3) in Ep.
           destruct (forallb release_part _) eqn:Ef.
           ++ right; right; right.
              destruct (find too_long _) as [p|] eqn:Efind; [|discriminate].
              injection Ep as <-. exists m, p.
              apply find_some in Efind as [Hin Hlong].
              split; [reflexivity|]. split.
              ** cbn [In] in Hin. intuition congruence.
              ** split; [|reflexivity].
                 destruct (Nat.le_gt_cases (String.length p) 4300) as [Hle|Hgt];
                   [|exact Hgt].
                 apply too_long_short in Hle. congruence.
           ++ right; right; left. injection Ep as <-. exists m.
              split; [reflexivity|]. split; [|reflexivity].
              destruct (digits_are_ascii out) eqn:Ha; [|reflexivity].
              pose proof (parse_search _ _ Ha E) as Hp.
              rewrite (parse_version_join _ _ _ H1 H2 H3), Ef in Hp.
              destruct (find too_long _); discriminate.
        -- right; left. injection H as <- _ _. split; [reflexivity|].
           split; [|reflexivity]. intros [g Hg]%search_occurs. congruence.
      * left. injection H as <- _ _. now split.
    + right; left. exists rc, out. injection H as <- _ _. now repeat split.
  - left. exists errno. injection H as <- _ _. now split.
Qed.

Lemma version_raises_only_witness :
  mem (ascii_of_N 0) es_bin = false
  /\ version (exiting 0 "bash: elasticsearch: command not found") (fresh 9300 "es")
     = (Raise (RuntimeError (not_recognized "bash: elasticsearch: command not found") None),
        tick (exiting 0 "bash: elasticsearch: command not found"), fresh 9300 "es")
  /\ ~ occurs "bash: elasticsearch: command not found".
Proof.
  split; [reflexivity|]. split; [reflexivity|].
  destruct (version_raises_only (exiting 0 "bash: elasticsearch: command not found")
              (fresh 9300 "es") _
              (tick (exiting 0 "bash: elasticsearch: command not found"))
              (fresh 9300 "es") eq_refl eq_refl)
    as [(errno & H & _)|[(rc & out & H & Hrc & _)|(out & H & Hcases)]].
  - discriminate H.
  - injection H as <- _. now destruct Hrc.
  - injection H as <-.
    destruct Hcases as [[H _]|[(_ & H & _)|[(m & H & _)|(m & p & H & _)]]];
      [discriminate H | exact H | discriminate H | discriminate H].
Defined.

(** X4: the pattern is read with its capital letter: when nothing is stored
    and the binary exits with status 0 after printing well-formed UTF-8 that
    holds no capital V, [version] raises the not-recognized
    [RuntimeError]. *)
Theorem version_case_sensitive w self out :
  _version self = None ->
  programs w (invocations w) [executable self; "-Vv"] = Exited 0 out ->
  valid_utf8 out = true ->
  mem "V" out = false ->
  version w self = (Raise (RuntimeError (not_recognized out) None), tick w, self).
Proof.
  intros Hnone Hrun Hutf HV. rewrite (version_fresh _ _ Hnone), Hrun.
  change (0 =? 0) with true. cbv iota. rewrite Hutf.
  destruct (Re.search out) as [m|] eqn:E; [|reflexivity].
  apply search_has_V in E. congruence.
Qed.

Lemma version_case_sensitive_witness :
  _version (fresh 9300 "es") = None
  /\ valid_utf8 "version: 7.10.2" = true
  /\ mem "V" "version: 7.10.2" = false
  /\ version (printing "version: 7.10.2") (fresh 9300 "es")
     = (Raise (RuntimeError (not_recognized "version: 7.10.2") None),
        tick (printing "version: 7.10.2"), fresh 9300 "es").
Proof.
  split; [reflexivity|]. split; [reflexivity|]. split; [reflexivity|].
  apply (version_case_sensitive (printing "version: 7.10.2") (fresh 9300 "es")
           "version: 7.10.2"); reflexivity.
Defined.

(** ** Command building, further *)

Lemma exec_command_Ok w self command w1 self1 :
  _exec_command w self = (Ok command, w1, self1) ->
  exists v,
    version w self = (Ok (Some v), w1, self1)
    /\ lt v {| release := [6; 0; 0]%N |} = false
    /\ command = command_text self1.
Proof.
  rewrite exec_command_eq.
  destruct (version w self) as [[[[v|]|e] w'] self'] eqn:E; try discriminate.
  destruct (lt v _) eqn:Hlt; [discriminate|].
  intros [= <- <- <-]. now exists v.
Qed.

Lemma exec_command_cached w self v :
  _version self = Some v ->
  _exec_command w self =
    if lt v {| release := [6; 0; 0]%N |}
    then (Raise (RuntimeError not_supported None), w, self)
    else (Ok (command_text self), w, self).
Proof. intros H. now rewrite exec_command_eq, (version_cached _ _ _ H). Qed.

Lemma version_never_not_supported w self e w1 self1 :
  version w self = (Raise e, w1, self1) -> e <> RuntimeError not_supported None.
Proof.
  intros H. destruct (version_Raise _ _ _ _ _ H) as (Hnone & _ & _).
  rewrite (version_fresh _ _ Hnone) in H. revert H.
  version_cases; try discriminate; intros [= <- _ _]; try discriminate.
  destruct (parse_version_Raise _ _ Hp) as [->|[p ->]]; discriminate.
Qed.

Lemma version_fresh_world w self r w1 self1 :
  _version self = None -> version w self = (r, w1, self1) -> w1 = tick w.
Proof.
  intros Hnone. rewrite (version_fresh _ _ Hnone).
  version_cases; now intros [= _ <- _].
Qed.

Lemma exec_command_fresh_world w self r w1 self1 :
  _version self = None -> _exec_command w self = (r, w1, self1) -> w1 = tick w.
Proof.
  intros Hnone. rewrite exec_command_eq.
  destruct (version w self) as [[[[v|]|e] w2] self2] eqn:E;
    [destruct (lt v _)|..]; intros [= _ <- _];
    exact (version_fresh_world _ _ _ _ _ Hnone E).
Qed.

(** X5: [_exec_command] raises either the not-supported [RuntimeError], the
    version having been detected and being below 6.0.0, or exactly what
    [version] raised; it never raises anything else (no [TypeError]: the
    version it compares is never [None]). *)
Theorem exec_command_raises_only w self e w1 self1 :
  _exec_command w self = (Raise e, w1, self1) ->
  (e = RuntimeError not_supported None
   /\ exists v, version w self = (Ok (Some v), w1, self1)
                /\ lt v {| release := [6; 0; 0]%N |} = true)
  \/ version w self = (Raise e, w1, self1).
Proof.
  rewrite exec_command_eq.
  destruct (version w self) as [[[r|e'] w'] self'] eqn:E.
  - destruct (version_Ok _ _ _ _ _ E) as (v & -> & _).
    destruct (lt v _) eqn:Hlt; [|discriminate].
    intros [= <- <- <-]. left. split; [reflexivity|]. now exists v.
  - intros [= <- <- <-]. now right.
Qed.

Lemma exec_command_raises_only_witness :
  _exec_command missing (fresh 9300 "es")
  = (Raise (RuntimeError (does_not_point es_bin) (Some (OSError 2))), tick missing,
     fresh 9300 "es")
  /\ ((RuntimeError (does_not_point es_bin) (Some (OSError 2))
       = RuntimeError not_supported None
       /\ exists v, version missing (fresh 9300 "es")
                    = (Ok (Some v), tick missing, fresh 9300 "es")
                    /\ lt v {| release := [6; 0; 0]%N |} = true)
      \/ version missing (fresh 9300 "es")
         = (Raise (RuntimeError (does_not_point es_bin) (Some (OSError 2))),
            tick missing, fresh 9300 "es")).
Proof.
  split; [reflexivity|].
  apply (exec_command_raises_only missing (fresh 9300 "es") _ (tick missing)
           (fresh 9300 "es") eq_refl).
Defined.

(** X6: the outcome of command building is settled by the first detection.
    Once [_exec_command] has returned a command or raised the not-supported
    [RuntimeError], every later call on the object it left, in any world,
    gives the same outcome and leaves the world and the object as they are:
    an unsupported version stays unsupported even if the binary is replaced
    meanwhile. *)
Theorem exec_command_settled w self r w1 self1 :
  _exec_command w self = (r, w1, self1) ->
  (exists command, r = Ok command) \/ r = Raise (RuntimeError not_supported None) ->
  forall w2 : World, _exec_command w2 self1 = (r, w2, self1).
Proof.
  intros H Hr w2.
  assert (exists v, _version self1 = Some v
                    /\ r = if lt v {| release := [6; 0; 0]%N |}
                           then Raise (RuntimeError not_supported None)
                           else Ok (command_text self1)) as (v & Hv & ->).
  { rewrite exec_command_eq in H.
    destruct (version w self) as [[[r'|e'] w'] self'] eqn:E.
    - destruct (version_Ok _ _ _ _ _ E) as (v & -> & Hv).
      exists v. destruct (lt v _); injection H as <- _ <-; now split.
    - injection H as <- _ _. exfalso.
      destruct Hr as [[command Hr]|[= ->]]; [discriminate|].
      now apply (version_never_not_supported _ _ _ _ _ E). }
  rewrite (exec_command_cached _ _ _ Hv). now destruct (lt v _).
Qed.

Lemma exec_command_settled_witness :
  _exec_command (printing (banner "5.6.16")) (fresh 9300 "es")
  = (Raise (RuntimeError not_supported None), tick (printing (banner "5.6.16")),
     set_version (fresh 9300 "es") (Some {| release := [5; 6; 16]%N |}))
  /\ _exec_command (printing (banner "7.10.2"))
       (set_version (fresh 9300 "es") (Some {| release := [5; 6; 16]%N |}))
     = (Raise (RuntimeError not_supported None), printing (banner "7.10.2"),
        set_version (fresh 9300 "es") (Some {| release := [5; 6; 16]%N |})).
Proof.
  split; [reflexivity|].
  apply (exec_command_settled (printing (banner "5.6.16")) (fresh 9300 "es") _
           (tick (printing (banner "5.6.16"))) _ eq_refl).
  now right.
Defined.

(** X7: a version detected from the binary has three numbers, the first at
    most 9, and the first alone decides: command building returns the command
    when it is 6 or more and raises the not-supported [RuntimeError] when it
    is 5 or less, whatever the minor and patch numbers. *)
Theorem exec_command_by_major w self v w1 self1 :
  _version self = None ->
  version w self = (Ok (Some v), w1, self1) ->
  exists a b c,
    release v = [a; b; c] /\ (a <= 9)%N
    /\ ((6 <= a)%N -> _exec_command w self = (Ok (command_text self), w1, self1))
    /\ ((a < 6)%N ->
        _exec_command w self = (Raise (RuntimeError not_supported None), w1, self1)).
Proof.
  intros Hnone Hv.
  destruct (version_detected _ _ _ _ _ Hnone Hv) as (c & mi & pa & Hc & _ & _ & Hrel).
  exists (int (String c "")), (int mi), (int pa).
  split; [exact Hrel|].
  assert (int (String c "") <= 9)%N as H9.
  { unfold int, is_digit in *. cbn [int_acc].
    apply andb_true_iff in Hc as [H1 H2]. apply N.leb_le in H1, H2. lia. }
  split; [exact H9|]. split; intros Ha.
  - apply (exec_command_supported _ _ _ _ _ _ _ _ Hv Hrel).
    unfold triple_lt. lia.
  - rewrite exec_command_eq, Hv. destruct v as [rel]. cbn [release] in Hrel.
    subst rel.
    assert (lt {| release := [int (String c ""); int mi; int pa] |}
              {| release := [6; 0; 0]%N |} = true) as ->; [|reflexivity].
    apply lt_triple. unfold triple_lt. lia.
Qed.

Lemma exec_command_by_major_witness :
  _version (fresh 9300 "es") = None
  /\ exists a b c,
       release {| release := [6; 0; 0]%N |} = [a; b; c] /\ (a <= 9)%N
       /\ ((6 <= a)%N ->
           _exec_command (printing (banner "6.0.0")) (fresh 9300 "es")
           = (Ok (command_text (fresh 9300 "es")), tick (printing (banner "6.0.0")),
              set_version (fresh 9300 "es") (Some {| release := [6; 0; 0]%N |})))
       /\ ((a < 6)%N ->
           _exec_command (printing (banner "6.0.0")) (fresh 9300 "es")
           = (Raise (RuntimeError not_supported None),
              tick (printing (banner "6.0.0")),
              set_version (fresh 9300 "es") (Some {| release := [6; 0; 0]%N |}))).
Proof.
  split; [reflexivity|].
  apply (exec_command_by_major (printing (banner "6.0.0")) (fresh 9300 "es")
           {| release := [6; 0; 0]%N |}); reflexivity.
Defined.

(** X8: command building changes nothing of the object but [_version], and
    nothing of the world but the number of invocations, which grows by one at
    most. *)
Theorem exec_command_keeps_attributes w self r w1 self1 :
  _exec_command w self = (r, w1, self1) ->
  executable self1 = executable self
  /\ host self1 = host self
  /\ port self1 = port self
  /\ tcp_port self1 = tcp_port self
  /\ pidfile self1 = pidfile self
  /\ logs_path self1 = logs_path self
  /\ works_path self1 = works_path self
  /\ cluster_name self1 = cluster_name self
  /\ network_publish_host self1 = network_publish_host self
  /\ index_store_type self1 = index_store_type self
  /\ http_auth self1 = http_auth self
  /\ base self1 = base self
  /\ programs w1 = programs w
  /\ (invocations w1 = invocations w \/ invocations w1 = S (invocations w)).
Proof.
  intros H.
  assert (w1 = w \/ w1 = tick w) as Hw.
  { destruct (_version self) as [v|] eqn:Hv.
    - left. rewrite (exec_command_cached _ _ _ Hv) in H.
      destruct (lt v _); now injection H as _ <- _.
    - right. exact (exec_command_fresh_world _ _ _ _ _ Hv H). }
  destruct (exec_command_attributes _ _ _ _ _ H) as [->|[v ->]];
    (repeat (split; [reflexivity|])); destruct Hw as [->| ->]; split;
    try reflexivity; auto.
Qed.

Lemma exec_command_keeps_attributes_witness :
  host (set_version (fresh 9300 "es") (Some v7)) = "127.0.0.1"
  /\ base (set_version (fresh 9300 "es") (Some v7)) = None
  /\ invocations (tick (printing (banner "7.10.2"))) = 1%nat.
Proof.
  destruct (exec_command_keeps_attributes (printing (banner "7.10.2"))
              (fresh 9300 "es") _ (tick (printing (banner "7.10.2")))
              (set_version (fresh 9300 "es") (Some v7)) eq_refl)
    as (_ & Hh & _ & _ & _ & _ & _ & _ & _ & _ & _ & Hb & _ & _).
  split; [exact Hh|]. split; [exact Hb|]. reflexivity.
Defined.

(** ** The constructor, further *)

Section Constructor.

Variable (super_init : HTTPExecutor.init).
Variables (executable host : string) (port tcp_port : Z).
Variables (pidfile logs_path works_path cluster_name network_publish_host
             index_store_type : string).
Variables (timeout : Z).

Let construct' (http_auth : option (gmap string value)) (w : World) :=
  __init__ super_init executable host port tcp_port pidfile logs_path works_path
    cluster_name network_publish_host index_store_type timeout http_auth w.

(** The object as the constructor has it when it builds the command. *)
Let self0 (http_auth : option (gmap string value)) : t :=
  {| _version := None; ElasticSearchExecutor.executable := executable;
     ElasticSearchExecutor.host := host; ElasticSearchExecutor.port := port;
     ElasticSearchExecutor.tcp_port := tcp_port;
     ElasticSearchExecutor.pidfile := pidfile;
     ElasticSearchExecutor.logs_path := logs_path;
     ElasticSearchExecutor.works_path := works_path;
     ElasticSearchExecutor.cluster_name := cluster_name;
     ElasticSearchExecutor.network_publish_host := network_publish_host;
     ElasticSearchExecutor.index_store_type := index_store_type;
     ElasticSearchExecutor.http_auth := http_auth; base := None |}.

(** What a successful construction went through. *)
Lemma init_Ok http_auth w e w' :
  construct' http_auth w = (Ok e, w') ->
  exists headers v self1 b,
    make_headers http_auth = Ok headers
    /\ version w (self0 http_auth) = (Ok (Some v), w', self1)
    /\ lt v {| release := [6; 0; 0]%N |} = false
    /\ super_init (command_text (self0 http_auth))
         ("http://" ++ host ++ ":" ++ str_of_int port) timeout headers
       = Ok b
    /\ e = set_base self1 b.
Proof.
  unfold construct', __init__. fold (self0 http_auth).
  destruct (make_headers http_auth) as [headers|]; [|discriminate].
  destruct (_exec_command w _) as [[[command|err] w1] self1] eqn:E; [|discriminate].
  destruct (super_init command _ timeout headers) as [b|err] eqn:Eb; [|discriminate].
  intros [= <- <-].
  destruct (exec_command_Ok _ _ _ _ _ E) as (v & Hv & Hlt & ->).
  exists headers, v, self1, b. repeat split; try assumption.
  destruct (version_attributes _ _ _ _ _ Hv) as [->|[v' ->]]; exact Eb.
Qed.

(** X9: what a successful construction leaves.  The binary has been invoked
    once.  The constructor of the base class has been given the command text
    for the arguments, the URL [http://host:port], the timeout and the
    headers derived from the credentials, and has accepted them.  The
    executor holds the host and the port that the base class assigned, every
    other argument as it was given, and a stored version that is not below
    6.0.0. *)
Theorem init_postcondition http_auth w e w' :
  construct' http_auth w = (Ok e, w') ->
  w' = tick w
  /\ ElasticSearchExecutor.executable e = executable
  /\ ElasticSearchExecutor.tcp_port e = tcp_port
  /\ ElasticSearchExecutor.pidfile e = pidfile
  /\ ElasticSearchExecutor.logs_path e = logs_path
  /\ ElasticSearchExecutor.works_path e = works_path
  /\ ElasticSearchExecutor.cluster_name e = cluster_name
  /\ ElasticSearchExecutor.network_publish_host e = network_publish_host
  /\ ElasticSearchExecutor.index_store_type e = index_store_type
  /\ ElasticSearchExecutor.http_auth e = http_auth
  /\ (exists v, _version e = Some v /\ lt v {| release := [6; 0; 0]%N |} = false)
  /\ exists headers b,
       make_headers http_auth = Ok headers
       /\ super_init (command_text (self0 http_auth))
            ("http://" ++ host ++ ":" ++ str_of_int port) timeout headers
          = Ok b
       /\ base e = Some b
       /\ ElasticSearchExecutor.host e = HTTPExecutor.host b
       /\ ElasticSearchExecutor.port e = HTTPExecutor.port b.
Proof.
  intros (headers & v & self1 & b & Hh & Hv & Hlt & Hb & ->)%init_Ok.
  split; [eapply version_fresh_world; [|exact Hv]; reflexivity|].
  destruct (version_Ok _ _ _ _ _ Hv) as (v' & [= <-] & Hstored).
  destruct (version_attributes _ _ _ _ _ Hv) as [->|[v' ->]];
    (repeat (split; [reflexivity|])); (split; [now exists v|]);
    now exists headers, b.
Qed.

(** X10: a constructed executor never invokes the binary again: in any
    world, its [version] returns the stored version and [_exec_command]
    returns the command text for the attributes the executor now has, both
    leaving the world and the executor as they are. *)
Theorem constructed_never_invokes http_auth w e w' :
  construct' http_auth w = (Ok e, w') ->
  exists v,
    _version e = Some v
    /\ forall w2 : World,
         version w2 e = (Ok (Some v), w2, e)
         /\ _exec_command w2 e = (Ok (command_text e), w2, e).
Proof.
  intros (headers & v & self1 & b & Hh & Hv & Hlt & Hb & ->)%init_Ok.
  destruct (version_Ok _ _ _ _ _ Hv) as (v' & [= <-] & Hstored).
  exists v. split; [exact Hstored|].
  intros w2. split.
  - now apply version_cached.
  - rewrite (exec_command_cached w2 _ v) by exact Hstored. now rewrite Hlt.
Qed.

(** X11: credentials that lack a key stop the constructor before anything
    else happens: without [login] it raises [KeyError] for [login], with
    [login] and without [password] it raises [KeyError] for [password]; the
    world is left as it was, the binary is not invoked. *)
Theorem init_missing_credential (auth : gmap string value) (w : World) :
  (auth !! "login" = None ->
     construct' (Some auth) w = (Raise (KeyError "login"), w))
  /\ (forall login, auth !! "login" = Some login -> auth !! "password" = None ->
        construct' (Some auth) w = (Raise (KeyError "password"), w)).
Proof.
  unfold construct', __init__, make_headers, getitem. split.
  - now intros ->.
  - now intros login -> ->.
Qed.

(** X12: when the credentials are absent or hold both keys, the constructor
    invokes the binary exactly once, whether it then succeeds or raises. *)
Theorem init_invokes_once http_auth headers w r w' :
  make_headers http_auth = Ok headers ->
  construct' http_auth w = (r, w') ->
  w' = tick w.
Proof.
  unfold construct', __init__. intros ->.
  destruct (_exec_command w _) as [[[command|e] w1] self1] eqn:E;
    [destruct (super_init command _ timeout headers)|]; intros [= _ <-];
    (eapply exec_command_fresh_world; [|exact E]; reflexivity).
Qed.

End Constructor.

Lemma init_postcondition_witness :
  exists e,
    construct 9300 None (printing (banner "7.10.2"))
    = (Ok e, tick (printing (banner "7.10.2")))
    /\ ElasticSearchExecutor.host e = "127.0.0.1"
    /\ ElasticSearchExecutor.port e = 9200
    /\ _version e = Some v7
    /\ exists b,
         base e = Some b
         /\ HTTPExecutor.command b = command_text e
         /\ HTTPExecutor.url b = "http://127.0.0.1:9200"
         /\ HTTPExecutor.timeout b = 60
         /\ HTTPExecutor.headers b = None.
Proof.
  destruct (construct 9300 None (printing (banner "7.10.2"))) as [[e|err] w'] eqn:E;
    [|discriminate E].
  destruct (init_postcondition _ _ _ _ _ _ _ _ _ _ _ _ _ _ _ _ E)
    as (-> & _ & _ & _ & _ & _ & _ & _ & _ & _ & _ & headers & b & Hm & Hb & Hbase
        & Hhost & Hport).
  exists e. split; [reflexivity|].
  injection Hm as <-. injection Hb as <-.
  split; [exact Hhost|]. split; [exact Hport|].
  unfold construct in E. vm_compute in E. injection E as <-.
  split; [reflexivity|]. eexists. split; [reflexivity|]. now repeat split.
Defined.

Lemma constructed_never_invokes_witness :
  exists e v,
    construct 9300 None (printing (banner "7.10.2"))
    = (Ok e, tick (printing (banner "7.10.2")))
    /\ _version e = Some v
    /\ version missing e = (Ok (Some v), missing, e)
    /\ _exec_command missing e = (Ok (command_text e), missing, e).
Proof.
  destruct (construct 9300 None (printing (banner "7.10.2"))) as [[e|err] w'] eqn:E;
    [|discriminate E].
  destruct (constructed_never_invokes _ _ _ _ _ _ _ _ _ _ _ _ _ _ _ _ E)
    as (v & Hv & Hcalls).
  exists e, v.
  assert (w' = tick (printing (banner "7.10.2"))) as ->
    by (unfold construct in E; vm_compute in E; now injection E as _ <-).
  split; [reflexivity|]. split; [exact Hv|]. exact (Hcalls missing).
Defined.

Lemma init_missing_credential_witness :
  password_only !! "login" = None
  /\ construct 9300 (Some password_only) missing = (Raise (KeyError "login"), missing)
  /\ login_only !! "login" = Some (VStr "elastic")
  /\ login_only !! "password" = None
  /\ construct 9300 (Some login_only) missing = (Raise (KeyError "password"), missing).
Proof.
  split; [reflexivity|]. split.
  - apply (proj1 (init_missing_credential (accepting "127.0.0.1" 9200)
                    es_bin "127.0.0.1" 9200 9300
                    "/tmp/elasticsearch.9200.pid" "/tmp/elasticsearch_9200_logs"
                    "/tmp/elasticsearch_9200_tmp" "elasticsearch_cluster_9200"
                    "127.0.0.1" "mmapfs" 60 password_only missing)).
    reflexivity.
  - split; [reflexivity|]. split; [reflexivity|].
    apply (proj2 (init_missing_credential (accepting "127.0.0.1" 9200)
                    es_bin "127.0.0.1" 9200 9300
                    "/tmp/elasticsearch.9200.pid" "/tmp/elasticsearch_9200_logs"
                    "/tmp/elasticsearch_9200_tmp" "elasticsearch_cluster_9200"
                    "127.0.0.1" "mmapfs" 60 login_only missing) (VStr "elastic"));
      reflexivity.
Defined.

Lemma init_invokes_once_witness :
  make_headers None = Ok None
  /\ exists r w',
       construct 9300 None (printing (banner "5.6.16")) = (r, w')
       /\ w' = tick (printing (banner "5.6.16")).
Proof.
  split; [reflexivity|].
  destruct (construct 9300 None (printing (banner "5.6.16"))) as [r w'] eqn:E.
  exists r, w'. split; [reflexivity|].
  exact (init_invokes_once _ _ _ _ _ _ _ _ _ _ _ _ None None _ r w' eq_refl E).
Defined.

(** ** The Authorization header, further *)

Lemma string_forallb_mem p s c :
  string_forallb p s = true -> mem c s = true -> p c = true.
Proof.
  induction s as [|x s IH]; simpl; [discriminate 2|].
  intros [Hx Hs]%andb_true_iff [Hc|Hc]%orb_true_iff; [|now apply IH].
  apply Ascii.eqb_eq in Hc as <-. exact Hx.
Qed.

Lemma get_mem k s c : String.get k s = Some c -> mem c s = true.
Proof.
  revert k. induction s as [|x s IH]; intros k; simpl; [discriminate|].
  destruct k as [|k].
  - intros [= ->]. now rewrite Ascii.eqb_refl.
  - intros H. rewrite (IH _ H). apply orb_true_r.
Qed.

Lemma sextet_printable n : printable (Base64.sextet n) = true.
Proof.
  unfold Base64.sextet.
  destruct (String.get _ Base64.alphabet) as [c|] eqn:E; [|reflexivity].
  apply (string_forallb_mem printable Base64.alphabet); [reflexivity|].
  exact (get_mem _ _ _ E).
Qed.

Lemma b64encode_printable s :
  string_forallb printable (Base64.b64encode s) = true.
Proof.
  assert (forall n s, (String.length s <= n)%nat ->
            string_forallb printable (Base64.b64encode s) = true) as H.
  { clear s. induction n as [|n IH]; intros s Hs.
    - destruct s; [reflexivity | simpl in Hs; lia].
    - destruct s as [|a [|b [|c s]]]; [reflexivity|..];
        cbn [Base64.b64encode string_forallb];
        rewrite ?sextet_printable; cbn [andb]; try reflexivity.
      apply IH. simpl in Hs. lia. }
  exact (H _ _ (le_n _)).
Qed.

Lemma repr_body_printable b :
  string_forallb printable b = true -> PyBytes.repr_body squote b = b.
Proof.
  induction b as [|c b IH]; [reflexivity|].
  cbn [string_forallb PyBytes.repr_body]. intros [Hc Hb]%andb_true_iff.
  rewrite (IH Hb). unfold PyBytes.repr_byte.
  unfold printable in Hc.
  apply andb_true_iff in Hc as [[[[H1 H2]%andb_true_iff H3]%andb_true_iff
    H4]%andb_true_iff H5].
  apply negb_true_iff in H1, H2, H3. apply N.leb_le in H4. apply N.ltb_lt in H5.
  rewrite H1, H3. cbn [orb].
  repeat match goal with
         | |- context [(?x =? ?y)%N] => destruct (N.eqb_spec x y); [lia|]
         end.
  destruct (N.ltb_spec (N_of_ascii c) 32); [lia|].
  destruct (N.leb_spec 127 (N_of_ascii c)); [lia|]. reflexivity.
Qed.

Lemma printable_no_squote b :
  string_forallb printable b = true -> mem squote b = false.
Proof.
  induction b as [|c b IH]; [reflexivity|].
  cbn [string_forallb mem]. intros [Hc Hb]%andb_true_iff. rewrite (IH Hb).
  unfold printable in Hc.
  apply andb_true_iff in Hc as [[[[H1 _]%andb_true_iff _]%andb_true_iff _]%andb_true_iff _].
  apply negb_true_iff in H1. now rewrite H1.
Qed.

(** The text form of a base64 token is the token between [b'] and [']. *)
Lemma repr_b64encode s :
  PyBytes.repr (Base64.b64encode s) = "b'" ++ Base64.b64encode s ++ "'".
Proof.
  pose proof (b64encode_printable s) as H.
  unfold PyBytes.repr. rewrite (printable_no_squote _ H). cbn [andb].
  now rewrite (repr_body_printable _ H).
Qed.

(** X13: for every credentials dict that holds a login and a password
    (strings or integers, other keys allowed), the headers the constructor
    derives are the single entry [Authorization], whose value is [Basic ]
    followed by the text form of the token as a bytes object: the base64
    encoding of [login:password] between [b'] and [']. *)
Theorem authorization_header_form (auth : gmap string value) login password :
  auth !! "login" = Some login ->
  auth !! "password" = Some password ->
  make_headers (Some auth)
  = Ok (Some {[ "Authorization" :=
                  "Basic b'" ++ Base64.b64encode (str login ++ ":" ++ str password)
                  ++ "'" ]}).
Proof.
  intros Hl Hp. unfold make_headers, getitem, encode. rewrite Hl, Hp.
  now rewrite repr_b64encode.
Qed.

Lemma authorization_header_form_witness :
  with_realm !! "login" = Some (VStr "elastic")
  /\ with_realm !! "password" = Some (VInt 42)
  /\ make_headers (Some with_realm)
     = Ok (Some {[ "Authorization" :=
                     "Basic b'" ++ Base64.b64encode "elastic:42" ++ "'" ]}).
Proof.
  split; [reflexivity|]. split; [reflexivity|].
  apply (authorization_header_form with_realm (VStr "elastic") (VInt 42));
    reflexivity.
Defined.

(** ** The no-op executor, further *)

(** X14: the attributes of a no-op executor are [host] and [port] and no
    other when it is constructed without credentials, and [host], [port],
    [login] and [password] and no other when it is constructed with a dict
    that holds a login and a password, which it stores as they are; any other
    key of the dict is dropped. *)
Theorem noop_attributes host port (auth : gmap string value) login password :
  auth !! "login" = Some login ->
  auth !! "password" = Some password ->
  (exists o : gmap string value,
     NoopElasticsearch.__init__ host port None = Ok o
     /\ dom o = ({["host"; "port"]} : gset string))
  /\ (exists o : gmap string value,
        NoopElasticsearch.__init__ host port (Some auth) = Ok o
        /\ dom o = ({["host"; "port"; "login"; "password"]} : gset string)
        /\ NoopElasticsearch.getattr o "login" = Ok login
        /\ NoopElasticsearch.getattr o "password" = Ok password).
Proof.
  intros Hl Hp. split.
  - exists (<["port" := port]> (<["host" := host]> ∅)).
    split; [reflexivity|]. rewrite !dom_insert_L, dom_empty_L. set_solver.
  - unfold NoopElasticsearch.__init__, getitem. rewrite Hl, Hp.
    exists (<["password" := password]>
              (<["login" := login]> (<["port" := port]> (<["host" := host]> ∅)))).
    split; [reflexivity|]. split; [|split].
    + rewrite !dom_insert_L, dom_empty_L. set_solver.
    + reflexivity.
    + reflexivity.
Qed.

Lemma noop_attributes_witness :
  with_realm !! "login" = Some (VStr "elastic")
  /\ with_realm !! "password" = Some (VInt 42)
  /\ exists o : gmap string value,
       NoopElasticsearch.__init__ (VStr "127.0.0.1") (VInt 9200) (Some with_realm)
       = Ok o
       /\ dom o = ({["host"; "port"; "login"; "password"]} : gset string)
       /\ NoopElasticsearch.getattr o "login" = Ok (VStr "elastic")
       /\ NoopElasticsearch.getattr o "password" = Ok (VInt 42).
Proof.
  split; [reflexivity|]. split; [reflexivity|].
  apply (noop_attributes (VStr "127.0.0.1") (VInt 9200) with_realm
           (VStr "elastic") (VInt 42)); reflexivity.
Defined.

(** X15: the constructor of the no-op executor raises [KeyError] for
    [login] when the credentials dict lacks it, and [KeyError] for [password]
    when the dict has a login and lacks a password; no object is returned. *)
Theorem noop_missing_credential host port (auth : gmap string value) :
  (auth !! "login" = None ->
     NoopElasticsearch.__init__ host port (Some auth) = Raise (KeyError "login"))
  /\ (forall login, auth !! "login" = Some login -> auth !! "password" = None ->
        NoopElasticsearch.__init__ host port (Some auth) = Raise (KeyError "password")).
Proof.
  unfold NoopElasticsearch.__init__, getitem. split.
  - now intros ->.
  - now intros login -> ->.
Qed.

Lemma noop_missing_credential_witness :
  password_only !! "login" = None
  /\ NoopElasticsearch.__init__ (VStr "127.0.0.1") (VInt 9200) (Some password_only)
     = Raise (KeyError "login")
  /\ login_only !! "login" = Some (VStr "elastic")
  /\ login_only !! "password" = None
  /\ NoopElasticsearch.__init__ (VStr "127.0.0.1") (VInt 9200) (Some login_only)
     = Raise (KeyError "password").
Proof.
  split; [reflexivity|]. split.
  - apply (proj1 (noop_missing_credential (VStr "127.0.0.1") (VInt 9200)
                    password_only)). reflexivity.
  - split; [reflexivity|]. split; [reflexivity|].
    apply (proj2 (noop_missing_credential (VStr "127.0.0.1") (VInt 9200) login_only)
             (VStr "elastic")); reflexivity.
Defined.

(** ** The lines of the command *)

(** X16: when no string-valued field of the configuration holds a newline,
    the command text is ten lines: an empty line, the line of the executable
    and its pid file, one line for each of the seven [-E] settings in the
    order of the source, each indented by twelve spaces, and a last line of
    eight spaces. *)
Theorem command_lines self :
  one_line_config self = true ->
  lines (command_text self)
  = [ "";
      indent 12 ++ executable self ++ " -p " ++ pidfile self;
      indent 12 ++ "-E http.port=" ++ str_of_int (port self);
      indent 12 ++ "-E transport.tcp.port=" ++ str_of_int (tcp_port self);
      indent 12 ++ "-E path.logs=" ++ logs_path self;
      indent 12 ++ "-E path.data=" ++ works_path self;
      indent 12 ++ "-E cluster.name=" ++ cluster_name self;
      indent 12 ++ "-E network.host='" ++ network_publish_host self ++ "'";
      indent 12 ++ "-E index.store.type=" ++ index_store_type self;
      indent 8 ].
Proof.
  unfold one_line_config.
  intros [[[[[[E P]%andb_true_iff L]%andb_true_iff W]%andb_true_iff
    C]%andb_true_iff H]%andb_true_iff I]%andb_true_iff.
  apply negb_true_iff in E, P, L, W, C, H, I.
  pose proof (str_of_int_no newline (port self) eq_refl eq_refl) as N1.
  pose proof (str_of_int_no newline (tcp_port self) eq_refl eq_refl) as N2.
  unfold lines.
  assert (command_text self =
    "" ++ String newline
    ((indent 12 ++ executable self ++ " -p " ++ pidfile self) ++ String newline
    ((indent 12 ++ "-E http.port=" ++ str_of_int (port self)) ++ String newline
    ((indent 12 ++ "-E transport.tcp.port=" ++ str_of_int (tcp_port self))
       ++ String newline
    ((indent 12 ++ "-E path.logs=" ++ logs_path self) ++ String newline
    ((indent 12 ++ "-E path.data=" ++ works_path self) ++ String newline
    ((indent 12 ++ "-E cluster.name=" ++ cluster_name self) ++ String newline
    ((indent 12 ++ "-E network.host='" ++ network_publish_host self ++ "'")
       ++ String newline
    ((indent 12 ++ "-E index.store.type=" ++ index_store_type self) ++ String newline
    (indent 8)))))))))) as ->
    by (unfold command_text; rewrite ?app_assoc_s; reflexivity).
  repeat (rewrite split_line;
          [|rewrite ?mem_app, ?E, ?P, ?L, ?W, ?C, ?H, ?I, ?N1, ?N2; reflexivity]).
  rewrite split_last by reflexivity. reflexivity.
Qed.

Lemma command_lines_witness :
  one_line_config (fresh 9300 "es") = true
  /\ length (lines (command_text (fresh 9300 "es"))) = 10%nat
  /\ nth 2 (lines (command_text (fresh 9300 "es"))) ""
     = indent 12 ++ "-E http.port=9200".
Proof.
  split; [reflexivity|].
  rewrite (command_lines (fresh 9300 "es") eq_refl). split; reflexivity.
Defined.
